(** * clair-scanner: the scan workflow and the whitelist approval engine

    A shallow embedding of [main.go].  Go strings are byte strings
    ([string]); Go maps are finite maps ([gmap]), a nil map reading like the
    empty one; a Go [error] value is a message, [nil] being [None].
    Functions that touch the outside world (HTTP, the log, the file system,
    process exit) live in a small trace monad defined below; the approval
    engine itself is pure. *)

From Stdlib Require Import ZArith Ascii.
From stdpp Require Import gmap strings list pretty.

(** ** Library functions used by [main.go] *)

(** [error]: the only observation the scanner makes of an error value is its
    message ([%s] formatting, [errors.New]). *)
Inductive error : Type :=
| errorString (msg : string).

Definition Error (e : error) : string :=
  match e with errorString msg => msg end.

Definition errors_New (msg : string) : error := errorString msg.

(** [strings.HasPrefix]. *)
Fixpoint HasPrefix (s prefix : string) {struct prefix} : bool :=
  match prefix, s with
  | EmptyString, _ => true
  | String p prefix', String c s' => if decide (p = c) then HasPrefix s' prefix' else false
  | String _ _, EmptyString => false
  end.

(** [strings.Split(s, sep)] for a non-empty [sep]: [s] is cut at every
    leftmost, non-overlapping occurrence of [sep].  [cur] is the piece read so
    far and [skip] counts the bytes of a separator still to be dropped. *)
Fixpoint genSplit (sep : string) (s : string) (skip : nat) (cur : string) : list string :=
  match s with
  | EmptyString => [cur]
  | String c s' =>
      match skip with
      | S k => genSplit sep s' k cur
      | O =>
          if HasPrefix s sep
          then cur :: genSplit sep s' (String.length sep - 1) EmptyString
          else genSplit sep s' O (cur +:+ String c EmptyString)
      end
  end.

(** With an empty separator Go explodes [s] into its UTF-8 sequences; the
    scanner never does that, and the model then yields the bytes. *)
Fixpoint explode (s : string) : list string :=
  match s with
  | EmptyString => []
  | String c s' => String c EmptyString :: explode s'
  end.

Definition strings_Split (s sep : string) : list string :=
  match sep with
  | EmptyString => explode s
  | String _ _ => genSplit sep s O EmptyString
  end.

(** [strings.Join]. *)
Fixpoint strings_Join (elems : list string) (sep : string) : string :=
  match elems with
  | [] => EmptyString
  | [e] => e
  | e :: rest => e +:+ sep +:+ strings_Join rest sep
  end.

(** [strconv.Itoa] and the [%d] verb. *)
Definition Itoa (i : Z) : string := pretty i.

(** The operands of the [fmt] calls of [main.go]. *)
Inductive fmt_arg : Type :=
| ArgString (s : string)
| ArgInt (i : Z)
| ArgStrings (l : list string)
| ArgError (e : error).

(** How [%s] prints an operand: a string as it is, an error by its message,
    a slice of strings as [[a b c]]. *)
Definition fmt_s (a : fmt_arg) : string :=
  match a with
  | ArgString s => s
  | ArgError e => Error e
  | ArgStrings l => "[" +:+ strings_Join l " " +:+ "]"
  | ArgInt i => "%!s(int=" +:+ Itoa i +:+ ")"
  end.

(** How [%d] prints an operand; only an integer is a good operand, and the
    scanner passes no other. *)
Definition fmt_d (a : fmt_arg) : string :=
  match a with
  | ArgInt i => Itoa i
  | ArgString s => "%!d(string=" +:+ s +:+ ")"
  | ArgError e => "&{%!d(string=" +:+ Error e +:+ ")}"
  | ArgStrings l => "[" +:+ strings_Join (map (λ s, "%!d(string=" +:+ s +:+ ")") l) " " +:+ "]"
  end.

(** How [%v] prints an operand. *)
Definition fmt_v (a : fmt_arg) : string :=
  match a with
  | ArgInt i => Itoa i
  | _ => fmt_s a
  end.

(** [fmt.Sprintf] for the verbs [%s], [%d] and [%v], the only ones the
    scanner uses.  Operands left over are not reported. *)
Fixpoint Sprintf (format : string) (args : list fmt_arg) : string :=
  match format with
  | EmptyString => EmptyString
  | String "%" (String "s" rest) =>
      match args with
      | a :: args' => fmt_s a +:+ Sprintf rest args'
      | [] => "%!s(MISSING)" +:+ Sprintf rest []
      end
  | String "%" (String "d" rest) =>
      match args with
      | a :: args' => fmt_d a +:+ Sprintf rest args'
      | [] => "%!d(MISSING)" +:+ Sprintf rest []
      end
  | String "%" (String "v" rest) =>
      match args with
      | a :: args' => fmt_v a +:+ Sprintf rest args'
      | [] => "%!v(MISSING)" +:+ Sprintf rest []
      end
  | String c rest => String c (Sprintf rest args)
  end.

(** [fmt.Errorf]. *)
Definition Errorf (format : string) (args : list fmt_arg) : error :=
  errorString (Sprintf format args).

(** ** Effects

    A run of effectful code is the trace of what it did to the outside world
    and the way it ended.  Go code ends by returning, by a run-time panic
    (deferred calls still run while the stack unwinds) or by [os.Exit]
    (the process stops at once: deferred calls do not run). *)

Inductive event : Type :=
| EvHttpGet (url : string)          (* http.Get(url) *)
| EvBodyClose                       (* response.Body.Close() *)
| EvStdout (text : string)          (* fmt.Printf *)
| EvLog (text : string)             (* the standard logger *)
| EvGo (fn : string)                (* a goroutine is started *)
| EvRemoveAll (path : string)       (* os.RemoveAll(path) *)
| EvCall (fn : string) (args : list string).   (* what a collaborator does *)

#[global] Instance event_eq_dec : EqDecision event.
Proof. solve_decision. Defined.

Inductive outcome (A : Type) : Type :=
| Returned (a : A)
| Panicked (msg : string)
| Exited (code : Z).
Arguments Returned {A} a.
Arguments Panicked {A} msg.
Arguments Exited {A} code.

Definition M (A : Type) : Type := (list event * outcome A)%type.

Definition trace {A} (m : M A) : list event := fst m.
Definition result {A} (m : M A) : outcome A := snd m.

Definition ret {A} (a : A) : M A := ([], Returned a).

Definition bind {A B} (m : M A) (k : A -> M B) : M B :=
  match m with
  | (t, Returned a) => let '(t', o) := k a in (t ++ t', o)
  | (t, Panicked msg) => (t, Panicked msg)
  | (t, Exited code) => (t, Exited code)
  end.

Notation "x <- m ;; k" := (bind m (fun x => k))
  (at level 100, m at next level, right associativity, only parsing).
Notation "m ;;; k" := (bind m (fun _ => k))
  (at level 100, right associativity, only parsing).

Definition emit (e : event) : M unit := ([e], Returned tt).
Definition panic {A} (msg : string) : M A := ([], Panicked msg).
Definition os_Exit {A} (code : Z) : M A := ([], Exited code).

(** [defer d; body]: [d] runs when [body] returns or panics, not when the
    process exits inside [body].  The scanner's deferred calls drop their
    results. *)
Definition defer {A B} (d : M B) (body : M A) : M A :=
  match body with
  | (t, Exited code) => (t, Exited code)
  | (t, Returned a) =>
      match d with
      | (td, Returned _) => (t ++ td, Returned a)
      | (td, Panicked msg) => (t ++ td, Panicked msg)
      | (td, Exited code) => (t ++ td, Exited code)
      end
  | (t, Panicked msg) =>
      match d with
      | (td, Returned _) => (t ++ td, Panicked msg)
      | (td, Panicked msg') => (t ++ td, Panicked msg')
      | (td, Exited code) => (t ++ td, Exited code)
      end
  end.

(** [s[i]] on a slice, with Go's bounds check. *)
Definition slice_index {A} (s : list A) (i : Z) : M A :=
  if bool_decide (0 ≤ i)%Z then
    match s !! Z.to_nat i with
    | Some x => ret x
    | None => panic ("runtime error: index out of range [" +:+ Itoa i +:+ "] with length "
                     +:+ Itoa (Z.of_nat (length s)))
    end
  else panic ("runtime error: index out of range [" +:+ Itoa i +:+ "]").

Definition fmt_Printf (format : string) (args : list fmt_arg) : M unit :=
  emit (EvStdout (Sprintf format args)).

(** [log.Fatalf] writes the message and calls [os.Exit(1)].  The time stamp
    the logger puts in front is left out. *)
Definition log_Fatalf (format : string) (args : list fmt_arg) : M unit :=
  emit (EvLog (Sprintf format args)) ;;; os_Exit 1.

Definition os_RemoveAll (path : string) : M (option error) :=
  emit (EvRemoveAll path) ;;; ret None.

(** ** Data model *)

Definition tmpPrefix : string := "clair-scanner-".
Definition httpPort : Z := 9279.
Definition postLayerURI : string := "/v1/layers".
Definition getLayerFeaturesURI : string := "/v1/layers/%s?vulnerabilities".

Record vulnerabilityInfo : Type := {
  vulnerability : string;
  namespace : string;
  severity : string
}.

Record vulnerabilitiesWhitelist : Type := {
  GeneralWhitelist : gmap string string;
  Images : gmap string (gmap string string)
}.

(** ** Approval engine *)

(** [strings.Split] with a non-empty separator yields at least one piece, so
    [imageWithoutVersion[0]] is in range.  The nil map that
    [imageVulnerabilities] starts as reads like the empty map. *)
Definition getImageVulnerabilities (imageName : string)
    (whitelistImageVulnerabilities : gmap string (gmap string string)) : gmap string string :=
  let imageVulnerabilities : gmap string string := ∅ in
  let imageWithoutVersion := strings_Split imageName ":" in
  match whitelistImageVulnerabilities !! (default EmptyString (head imageWithoutVersion)) with
  | Some val => val
  | None => imageVulnerabilities
  end.

(** The body of the loop of [vulnerabilitiesApproved] for one finding: the
    final value of the local [vulnerable]. *)
Definition vulnerable_after (whitelist : vulnerabilitiesWhitelist)
    (imageVulnerabilities : gmap string string) (name : string) : bool :=
  let vulnerable := true in
  let vulnerable :=
    if bool_decide (is_Some (GeneralWhitelist whitelist !! name)) then false else vulnerable in
  let vulnerable :=
    if vulnerable && bool_decide (0 < size imageVulnerabilities)
    then (if bool_decide (is_Some (imageVulnerabilities !! name)) then false else vulnerable)
    else vulnerable in
  vulnerable.

(** The loop [for i := 0; i < len(vulnerabilities); i++], threading the
    slice [unapproved]. *)
Fixpoint approval_loop (whitelist : vulnerabilitiesWhitelist)
    (imageVulnerabilities : gmap string string)
    (vulnerabilities : list vulnerabilityInfo) (unapproved : list string) : list string :=
  match vulnerabilities with
  | [] => unapproved
  | v :: rest =>
      approval_loop whitelist imageVulnerabilities rest
        (if vulnerable_after whitelist imageVulnerabilities (vulnerability v)
         then unapproved ++ [vulnerability v] else unapproved)
  end.

(** The slice [unapproved] when the loop is over. *)
Definition unapproved_of (imageName : string) (vulnerabilities : list vulnerabilityInfo)
    (whitelist : vulnerabilitiesWhitelist) : list string :=
  approval_loop whitelist (getImageVulnerabilities imageName (Images whitelist))
    vulnerabilities [].

Definition vulnerabilitiesApproved (imageName : string)
    (vulnerabilities : list vulnerabilityInfo) (whitelist : vulnerabilitiesWhitelist)
    : option error :=
  let unapproved := unapproved_of imageName vulnerabilities whitelist in
  if bool_decide (0 < length unapproved)
  then Some (Errorf "%s" [ArgStrings unapproved])
  else None.


(** ** Analyzer client *)

(** Modelled from the spec: the response types of the analyzer's API
    package ([v1.Layer], [v1.Feature], [v1.Vulnerability], [v1.Error],
    [v1.LayerEnvelope]) are not part of [main.go].  The envelope holds either
    an error object or a layer object containing a list of features, each
    with a list of vulnerabilities {name, namespaceName, severity}; the two
    pointer fields of the envelope are options. *)
Record v1_Vulnerability : Type := {
  Name : string;
  NamespaceName : string;
  Severity : string
}.

Record v1_Feature : Type := {
  FeatureName : string;
  Vulnerabilities : list v1_Vulnerability
}.

Record v1_Layer : Type := {
  LayerName : string;
  Features : list v1_Feature
}.

Record v1_Error : Type := {
  Message : string
}.

Record v1_LayerEnvelope : Type := {
  Layer : option v1_Layer;
  EnvelopeError : option v1_Error
}.

(** [v1.Layer{}] *)
Definition v1_Layer_zero : v1_Layer := {| LayerName := EmptyString; Features := [] |}.

(** What the scanner reads of an [*http.Response]: the status code and the
    bytes its body yields. *)
Record http_Response : Type := {
  StatusCode : Z;
  Body : string
}.

(** The outside world of the analyzer client: the answer of [http.Get] to a
    URL, the result of decoding a body with [encoding/json], and the colour
    escape of [color.YellowString]. *)
Record Analyzer : Type := {
  http_Get : string -> http_Response + error;
  json_Decode : string -> v1_LayerEnvelope + error;
  color_YellowString : string -> string
}.

Definition nil_dereference : string :=
  "runtime error: invalid memory address or nil pointer dereference".

(** The part of [fetchLayerVulnerabilities] that runs once [http.Get] has
    answered, under [defer response.Body.Close()]. *)
Definition readLayerResponse (a : Analyzer) (response : http_Response)
    : M (v1_Layer * option error) :=
  if bool_decide (StatusCode response ≠ 200%Z) then
    let body := Body response in
    let err := Errorf "Got response %d with message %s"
                 [ArgInt (StatusCode response); ArgString body] in
    ret (v1_Layer_zero, Some err)
  else
    match json_Decode a (Body response) with
    | inr err => ret (v1_Layer_zero, Some err)
    | inl apiResponse =>
        match EnvelopeError apiResponse with
        | Some e => ret (v1_Layer_zero, Some (errors_New (Message e)))
        | None =>
            match Layer apiResponse with
            | Some l => ret (l, None)
            | None => panic nil_dereference
            end
        end
    end.

Definition fetchLayerVulnerabilities (a : Analyzer) (clairURL layerID : string)
    : M (v1_Layer * option error) :=
  let url := clairURL +:+ Sprintf getLayerFeaturesURI [ArgString layerID] in
  emit (EvHttpGet url) ;;;
  match http_Get a url with
  | inr err => ret (v1_Layer_zero, Some err)
  | inl response => defer (emit EvBodyClose) (readLayerResponse a response)
  end.

(** [for _, vulnerability := range feature.Vulnerabilities] *)
Fixpoint range_vulnerabilities (vs : list v1_Vulnerability)
    (vulnerabilities : list vulnerabilityInfo) : list vulnerabilityInfo :=
  match vs with
  | [] => vulnerabilities
  | v :: rest =>
      let vulnerability :=
        {| vulnerability := Name v; namespace := NamespaceName v; severity := Severity v |} in
      range_vulnerabilities rest (vulnerabilities ++ [vulnerability])
  end.

(** [for _, feature := range rawVulnerabilities.Features] *)
Fixpoint range_features (fs : list v1_Feature)
    (vulnerabilities : list vulnerabilityInfo) : list vulnerabilityInfo :=
  match fs with
  | [] => vulnerabilities
  | feature :: rest =>
      range_features rest
        (if bool_decide (0 < length (Vulnerabilities feature))
         then range_vulnerabilities (Vulnerabilities feature) vulnerabilities
         else vulnerabilities)
  end.

Definition no_features_note : string :=
  "%s No features have been detected in the image. This usually means that the image isn't supported by Clair.
".

Definition getVulnerabilities (a : Analyzer) (clairURL : string) (layerIds : list string)
    : M (list vulnerabilityInfo * option error) :=
  let vulnerabilities : list vulnerabilityInfo := [] in
  layerID <- slice_index layerIds (Z.of_nat (length layerIds) - 1) ;;
  r <- fetchLayerVulnerabilities a clairURL layerID ;;
  let '(rawVulnerabilities, err) := r in
  match err with
  | Some e => ret (vulnerabilities, Some e)
  | None =>
      if bool_decide (length (Features rawVulnerabilities) = 0) then
        fmt_Printf no_features_note [ArgString (color_YellowString a "NOTE:")] ;;;
        ret (vulnerabilities, None)
      else
        ret (range_features (Features rawVulnerabilities) vulnerabilities, None)
  end.

(** The URLs a run asked the analyzer for. *)
Definition queried (t : list event) : list string :=
  omap (λ e, match e with EvHttpGet url => Some url | _ => None end) t.

(** ** Scan orchestrator *)

(** The functions [start] calls that live in other files of the repository.
    Each one is taken as it behaves on a run: what it does, and whether it
    returns, panics or exits. *)
Record Collaborators : Type := {
  Server : Type;
  createTmpPath : string -> M string;
  saveDockerImage : string -> string -> M unit;
  getImageLayerIds : string -> M (list string);
  httpFileServer : string -> string -> M Server;
  Shutdown : Server -> M (option error);
  analyzeLayers : list string -> string -> string -> M unit
}.

(** The callback handed to [listenForSignal]. *)
Definition signal_callback (s : string) : M unit :=
  log_Fatalf "Application interupted %v" [ArgString s].

(** [start] from the call of [getVulnerabilities] on. *)
Definition start_decide (a : Analyzer) (imageName : string)
    (whitelist : vulnerabilitiesWhitelist) (clairURL : string) (layerIds : list string)
    : M unit :=
  r <- getVulnerabilities a clairURL layerIds ;;
  let '(vulnerabilities, err) := r in
  (match err with
   | Some e => log_Fatalf "Analyzing failed: %s" [ArgError e]
   | None => ret tt
   end) ;;;
  match vulnerabilitiesApproved imageName vulnerabilities whitelist with
  | Some e => log_Fatalf "Image contains unapproved vulnerabilities: %s" [ArgError e]
  | None => ret tt
  end.

(** [start].  The goroutine waiting for a signal is started and not followed:
    the run below is the one no signal interrupts. *)
Definition start (c : Collaborators) (a : Analyzer) (imageName : string)
    (whitelist : vulnerabilitiesWhitelist) (clairURL scannerIP : string) : M unit :=
  tmpPath <- createTmpPath c tmpPrefix ;;
  defer (os_RemoveAll tmpPath) (
    emit (EvGo "listenForSignal") ;;;
    saveDockerImage c imageName tmpPath ;;;
    layerIds <- getImageLayerIds c tmpPath ;;
    server <- httpFileServer c tmpPath (Itoa httpPort) ;;
    defer (Shutdown c server) (
      analyzeLayers c layerIds clairURL scannerIP ;;;
      start_decide a imageName whitelist clairURL layerIds)).

(** How often a run removed the directory [path]. *)
Definition removals (path : string) (t : list event) : nat :=
  length (filter (λ e, e = EvRemoveAll path) t).

(** ** Entry point *)

(** The file system and the YAML decoder as [parseWhitelist] sees them:
    [ioutil.ReadFile] yields bytes and an error, [yaml.Unmarshal] fills the
    value it is handed and yields an error. *)
Record Files : Type := {
  ioutil_ReadFile : string -> string * option error;
  yaml_Unmarshal : string -> vulnerabilitiesWhitelist -> vulnerabilitiesWhitelist * option error
}.

(** [vulnerabilitiesWhitelist{}]: both maps nil. *)
Definition whitelist_zero : vulnerabilitiesWhitelist :=
  {| GeneralWhitelist := ∅; Images := ∅ |}.

(** [log.Print] and [log.Fatal] with one operand, printed as [%v] does. *)
Definition log_Print (a : fmt_arg) : M unit := emit (EvLog (fmt_v a)).

Definition log_Fatal (a : fmt_arg) : M unit :=
  emit (EvLog (fmt_v a)) ;;; os_Exit 1.

Definition parseWhitelist (fs : Files) (whitelistFile : string) : M vulnerabilitiesWhitelist :=
  let whitelistTmp := whitelist_zero in
  emit (EvCall "ioutil.ReadFile" [whitelistFile]) ;;;
  let '(whitelistBytes, err) := ioutil_ReadFile fs whitelistFile in
  (match err with
   | Some e => log_Fatal (ArgError e)
   | None => ret tt
   end) ;;;
  let '(whitelistTmp, err) := yaml_Unmarshal fs whitelistBytes whitelistTmp in
  (match err with
   | Some e => log_Fatalf "error: %v" [ArgError e]
   | None => ret tt
   end) ;;;
  ret whitelistTmp.

(** The options and the argument of the command line, once parsed. *)
Record Options : Type := {
  opt_whitelist : string;     (* -w, --whitelist *)
  opt_clair : string;         (* -c, --clair *)
  opt_ip : string;            (* --ip *)
  arg_IMAGE : string          (* IMAGE *)
}.

(** The options when only the image is given. *)
Definition default_options (image : string) : Options :=
  {| opt_whitelist := EmptyString;
     opt_clair := "http://127.0.0.1:6060";
     opt_ip := "localhost";
     arg_IMAGE := image |}.

(** [app.Before]: the package variable [whitelist] is passed in and out. *)
Definition app_Before (fs : Files) (o : Options) (whitelist : vulnerabilitiesWhitelist)
    : M vulnerabilitiesWhitelist :=
  if bool_decide (opt_whitelist o ≠ EmptyString)
  then parseWhitelist fs (opt_whitelist o)
  else ret whitelist.

(** [app.Action] *)
Definition app_Action (c : Collaborators) (a : Analyzer) (o : Options)
    (whitelist : vulnerabilitiesWhitelist) : M unit :=
  log_Print (ArgString "Start clair-scanner") ;;;
  start c a (arg_IMAGE o) whitelist (opt_clair o) (opt_ip o).

(** [main] from the parsed command line on: [app.Run] calls [Before], then
    [Action]; the package variable [whitelist] starts as the zero value. *)
Definition main (c : Collaborators) (a : Analyzer) (fs : Files) (o : Options) : M unit :=
  let whitelist := whitelist_zero in
  whitelist <- app_Before fs o whitelist ;;
  app_Action c a o whitelist.

(** ** The words of the design document, for comparison with the code *)

(** The image name truncated before its first [:], the whole name when it
    holds none. *)
Fixpoint imageKey (imageName : string) : string :=
  match imageName with
  | EmptyString => EmptyString
  | String c rest =>
      if decide (c = ":"%char) then EmptyString else String c (imageKey rest)
  end.

(** A name is covered by the general whitelist when it is one of its keys,
    and by the per-image whitelist when the whitelist has an entry for the
    image key and the name is a key of that entry. *)
Definition covered_general (whitelist : vulnerabilitiesWhitelist) (name : string) : Prop :=
  is_Some (GeneralWhitelist whitelist !! name).

Definition covered_image (whitelist : vulnerabilitiesWhitelist) (imageName name : string)
    : Prop :=
  match Images whitelist !! imageKey imageName with
  | Some entry => is_Some (entry !! name)
  | None => False
  end.

Definition whitelisted (whitelist : vulnerabilitiesWhitelist) (imageName name : string)
    : Prop :=
  covered_general whitelist name ∨ covered_image whitelist imageName name.

#[global] Instance covered_image_dec whitelist imageName name :
  Decision (covered_image whitelist imageName name).
Proof. unfold covered_image. destruct (Images whitelist !! imageKey imageName); apply _. Defined.

#[global] Instance whitelisted_dec whitelist imageName name :
  Decision (whitelisted whitelist imageName name).
Proof. unfold whitelisted, covered_general. apply _. Defined.

(** The findings that are not whitelisted, by name, in the order of the
    findings and with their repetitions. *)
Definition rejected_names (imageName : string) (vulnerabilities : list vulnerabilityInfo)
    (whitelist : vulnerabilitiesWhitelist) : list string :=
  vulnerability <$>
    filter (λ f, ¬ whitelisted whitelist imageName (vulnerability f)) vulnerabilities.

(** Whether a decision is an approval. *)
Definition approved (decision : option error) : bool :=
  match decision with None => true | Some _ => false end.

(** ** Stand-ins for the outside world, to run the code on concrete inputs *)

Definition stub_analyzer (status : Z) (body : string) (decoded : v1_LayerEnvelope + error)
    : Analyzer :=
  {| http_Get := λ _, inl {| StatusCode := status; Body := body |};
     json_Decode := λ _, decoded;
     color_YellowString := λ s, s |}.

Definition stub_collaborators (layerIds : list string) : Collaborators :=
  {| Server := unit;
     createTmpPath := λ prefix,
       emit (EvCall "createTmpPath" [prefix]) ;;; ret ("/tmp/" +:+ prefix +:+ "0");
     saveDockerImage := λ image path, emit (EvCall "saveDockerImage" [image; path]);
     getImageLayerIds := λ path, emit (EvCall "getImageLayerIds" [path]) ;;; ret layerIds;
     httpFileServer := λ path port, emit (EvCall "httpFileServer" [path; port]);
     Shutdown := λ _, emit (EvCall "Shutdown" []) ;;; ret None;
     analyzeLayers := λ ids clairURL scannerIP,
       emit (EvCall "analyzeLayers" (ids ++ [clairURL; scannerIP])) |}.

(** The two scenarios of the design document. *)
Definition scenario_findings : list vulnerabilityInfo :=
  [ {| vulnerability := "CVE-2020-1"; namespace := "os"; severity := "High" |};
    {| vulnerability := "CVE-2020-2"; namespace := "os"; severity := "Low" |} ].

Definition scenario_whitelist_image : vulnerabilitiesWhitelist :=
  {| GeneralWhitelist := ∅;
     Images := {[ "myapp" := {[ "CVE-2020-1" := "ok" ]} ]} |}.

Definition scenario_whitelist_general : vulnerabilitiesWhitelist :=
  {| GeneralWhitelist := {[ "CVE-2020-1" := "x"; "CVE-2020-2" := "y" ]};
     Images := ∅ |}.

(** The analyzer's answer carrying the two findings of the scenarios. *)
Definition scenario_layer : v1_Layer :=
  {| LayerName := "L3";
     Features :=
       [ {| FeatureName := "openssl";
            Vulnerabilities :=
              [ {| Name := "CVE-2020-1"; NamespaceName := "os"; Severity := "High" |};
                {| Name := "CVE-2020-2"; NamespaceName := "os"; Severity := "Low" |} ] |} ] |}.

Definition scenario_analyzer : Analyzer :=
  stub_analyzer 200 "layer L3"
    (inl {| Layer := Some scenario_layer; EnvelopeError := None |}).

(** One run of [start] on the image [myapp:1.0] with three layers, the
    analyzer reporting the two findings of the scenarios. *)
Definition scenario_run (whitelist : vulnerabilitiesWhitelist) : M unit :=
  start (stub_collaborators ["L1"; "L2"; "L3"]) scenario_analyzer
    "myapp:1.0" whitelist "http://clair:6060" "localhost".

(** A file system with one readable whitelist file, [whitelist.yaml], which
    decodes to the per-image whitelist of the scenarios; [broken.yaml] is
    readable and does not decode; nothing else can be read. *)
Definition stub_files : Files :=
  {| ioutil_ReadFile := λ path,
       if bool_decide (path = "whitelist.yaml") then ("images: myapp", None)
       else if bool_decide (path = "broken.yaml") then ("{", None)
       else (EmptyString, Some (errorString ("open " +:+ path +:+ ": no such file or directory")));
     yaml_Unmarshal := λ bytes out,
       if bool_decide (bytes = "images: myapp") then (scenario_whitelist_image, None)
       else (out, Some (errorString "yaml: did not find expected node content")) |}.

(** * Properties *)

(** ** Strings *)

Example library_examples :
  strings_Split "a:b:c" ":" = ["a"; "b"; "c"]
  ∧ strings_Split "" ":" = [""]
  ∧ strings_Split ":x" ":" = [""; "x"]
  ∧ strings_Split "a--b-c" "--" = ["a"; "b-c"]
  ∧ Sprintf getLayerFeaturesURI [ArgString "L3"] = "/v1/layers/L3?vulnerabilities"
  ∧ Sprintf "Got response %d with message %s" [ArgInt 404; ArgString "nope"]
    = "Got response 404 with message nope"
  ∧ Sprintf "%s" [ArgStrings ["a"; "b"]] = "[a b]"
  ∧ Itoa 0 = "0" ∧ Itoa (-1) = "-1" ∧ Itoa httpPort = "9279".
Proof. vm_compute. repeat split. Qed.

Lemma string_app_cons (c : ascii) (a b : string) : String c a +:+ b = String c (a +:+ b).
Proof. reflexivity. Qed.

Lemma string_app_nil_r (a : string) : a +:+ "" = a.
Proof. induction a as [|x a IH]; [done |]. by rewrite string_app_cons, IH. Qed.

Lemma string_app_assoc (a b c : string) : (a +:+ b) +:+ c = a +:+ (b +:+ c).
Proof. induction a as [|x a IH]; [done |]. by rewrite !string_app_cons, IH. Qed.

Lemma genSplit_colon_head (s cur : string) :
  head (genSplit ":" s 0 cur) = Some (cur +:+ imageKey s).
Proof.
  revert cur. induction s as [|c s IH]; intros cur.
  - simpl. by rewrite string_app_nil_r.
  - cbn [genSplit imageKey HasPrefix].
    destruct (decide (":"%char = c)) as [<- | Hne].
    + rewrite !decide_True by done. simpl. by rewrite string_app_nil_r.
    + rewrite (decide_False (P := c = ":"%char)) by congruence.
      rewrite IH, string_app_assoc. done.
Qed.

(** The key [getImageVulnerabilities] looks up is the image name truncated
    before its first [:]. *)
Lemma Split_colon_head (imageName : string) :
  default EmptyString (head (strings_Split imageName ":")) = imageKey imageName.
Proof. unfold strings_Split. by rewrite genSplit_colon_head. Qed.

(** [imageKey] holds no [:] and is the whole name or what stands before a
    [:] of the name. *)
Lemma imageKey_prefix (imageName : string) :
  imageName = imageKey imageName
  ∨ ∃ tag, imageName = imageKey imageName +:+ ":" +:+ tag.
Proof.
  induction imageName as [|c s IH]; [by left |].
  simpl. destruct (decide (c = ":"%char)) as [-> | Hne].
  - right. by exists s.
  - destruct IH as [IH | [tag IH]].
    + left. by rewrite <- IH.
    + right. exists tag. by rewrite string_app_cons, <- IH.
Qed.

Example imageKey_examples :
  imageKey "myapp:1.0" = "myapp" ∧ imageKey "myapp" = "myapp"
  ∧ imageKey "registry:5000/myapp:1.0" = "registry" ∧ imageKey "" = "".
Proof. repeat split. Qed.

(** ** The approval engine *)

Lemma getImageVulnerabilities_lookup (imageName : string)
    (images : gmap string (gmap string string)) :
  getImageVulnerabilities imageName images = default ∅ (images !! imageKey imageName).
Proof.
  unfold getImageVulnerabilities. rewrite Split_colon_head.
  by destruct (images !! imageKey imageName).
Qed.

(** The local [vulnerable] ends up true exactly for the names that neither
    whitelist covers. *)
Lemma vulnerable_after_whitelisted whitelist imageName name :
  vulnerable_after whitelist (getImageVulnerabilities imageName (Images whitelist)) name = true
  ↔ ¬ whitelisted whitelist imageName name.
Proof.
  rewrite getImageVulnerabilities_lookup.
  unfold vulnerable_after, whitelisted, covered_general, covered_image.
  destruct (Images whitelist !! imageKey imageName) as [entry|]; simpl.
  - case_bool_decide as Hg; simpl.
    { split; [done |]. intros Hn. destruct Hn. by left. }
    case_bool_decide as Hsize.
    + case_bool_decide as He.
      * split; [done |]. intros Hn. destruct Hn. by right.
      * split; [| done]. by intros _ [? | ?].
    + assert (entry = ∅) as -> by (apply map_size_empty_iff; lia).
      rewrite lookup_empty. split; [| done]. intros _ [? | [? ?]]; [done | discriminate].
  - case_bool_decide as Hg; simpl.
    { split; [done |]. intros Hn. destruct Hn. by left. }
    rewrite map_size_empty. rewrite bool_decide_false by lia.
    split; [| done]. by intros _ [? | ?].
Qed.

Lemma approval_loop_filter whitelist entry vulnerabilities unapproved :
  approval_loop whitelist entry vulnerabilities unapproved
  = unapproved ++ (vulnerability <$>
      filter (λ f, vulnerable_after whitelist entry (vulnerability f) = true) vulnerabilities).
Proof.
  revert unapproved. induction vulnerabilities as [|v rest IH]; intros unapproved; simpl.
  - by rewrite app_nil_r.
  - rewrite IH, filter_cons.
    destruct (vulnerable_after whitelist entry (vulnerability v)) eqn:Hv.
    + rewrite decide_True by done. by rewrite <- app_assoc.
    + rewrite decide_False by done. done.
Qed.

(** The slice the code builds is the list the design document describes. *)
Lemma unapproved_of_rejected_names imageName vulnerabilities whitelist :
  unapproved_of imageName vulnerabilities whitelist
  = rejected_names imageName vulnerabilities whitelist.
Proof.
  unfold unapproved_of, rejected_names. rewrite approval_loop_filter. simpl.
  f_equal. apply list_filter_iff. intros f. apply vulnerable_after_whitelisted.
Qed.

Lemma vulnerabilitiesApproved_rejected_names imageName vulnerabilities whitelist :
  vulnerabilitiesApproved imageName vulnerabilities whitelist
  = match rejected_names imageName vulnerabilities whitelist with
    | [] => None
    | names => Some (errorString ("[" +:+ strings_Join names " " +:+ "]"))
    end.
Proof.
  unfold vulnerabilitiesApproved. rewrite unapproved_of_rejected_names.
  destruct (rejected_names imageName vulnerabilities whitelist) as [|n names].
  - by rewrite bool_decide_false by (simpl; lia).
  - rewrite bool_decide_true by (simpl; lia).
    unfold Errorf. cbn [Sprintf fmt_s]. by rewrite string_app_assoc, string_app_nil_r.
Qed.

Lemma elem_of_rejected_names imageName vulnerabilities whitelist name :
  name ∈ rejected_names imageName vulnerabilities whitelist
  ↔ ∃ f, f ∈ vulnerabilities ∧ vulnerability f = name
         ∧ ¬ whitelisted whitelist imageName name.
Proof.
  unfold rejected_names. rewrite list_elem_of_fmap. split.
  - intros (f & -> & Hf). apply list_elem_of_filter in Hf as [Hnw Hin]. eauto.
  - intros (f & Hin & <- & Hnw). exists f. split; [done |].
    apply list_elem_of_filter. done.
Qed.

Lemma approved_rejected_names imageName vulnerabilities whitelist :
  approved (vulnerabilitiesApproved imageName vulnerabilities whitelist) = true
  ↔ rejected_names imageName vulnerabilities whitelist = [].
Proof.
  rewrite vulnerabilitiesApproved_rejected_names.
  by destruct (rejected_names imageName vulnerabilities whitelist).
Qed.

Lemma whitelisted_not_unapproved imageName vulnerabilities whitelist name :
  whitelisted whitelist imageName name →
  name ∉ unapproved_of imageName vulnerabilities whitelist.
Proof.
  intros Hw. rewrite unapproved_of_rejected_names, elem_of_rejected_names.
  intros (f & _ & _ & Hnw). by apply Hnw.
Qed.

(** C1: [vulnerabilitiesApproved] rejects exactly when some finding's name is
    covered neither by the general whitelist nor by the per-image whitelist
    of the image key; the slice [unapproved] it prints is then the name of
    every such finding, one per occurrence, in the order of the findings; the
    empty findings list is approved. *)
Theorem decide_rejects_iff_unwhitelisted (imageName : string)
    (vulnerabilities : list vulnerabilityInfo) (whitelist : vulnerabilitiesWhitelist) :
  (approved (vulnerabilitiesApproved imageName vulnerabilities whitelist) = false
   ↔ ∃ f, f ∈ vulnerabilities ∧ ¬ whitelisted whitelist imageName (vulnerability f))
  ∧ unapproved_of imageName vulnerabilities whitelist
    = vulnerability <$>
        filter (λ f, ¬ whitelisted whitelist imageName (vulnerability f)) vulnerabilities
  ∧ vulnerabilitiesApproved imageName vulnerabilities whitelist
    = (if decide (unapproved_of imageName vulnerabilities whitelist = []) then None
       else Some (errorString
              ("[" +:+ strings_Join (unapproved_of imageName vulnerabilities whitelist) " "
                   +:+ "]")))
  ∧ vulnerabilitiesApproved imageName [] whitelist = None.
Proof.
  split; [| split; [| split]].
  - rewrite <- not_true_iff_false, approved_rejected_names. split.
    + intros Hne.
      destruct (rejected_names imageName vulnerabilities whitelist) as [|name names] eqn:Hr;
        [done |].
      assert (name ∈ rejected_names imageName vulnerabilities whitelist) as Hin
        by (rewrite Hr; left).
      apply elem_of_rejected_names in Hin as (f & Hf & <- & Hnw). eauto.
    + intros (f & Hf & Hnw) Hnil.
      assert (vulnerability f ∈ rejected_names imageName vulnerabilities whitelist) as Hin
        by (apply elem_of_rejected_names; eauto).
      rewrite Hnil in Hin. by apply not_elem_of_nil in Hin.
  - apply unapproved_of_rejected_names.
  - rewrite vulnerabilitiesApproved_rejected_names, unapproved_of_rejected_names.
    by destruct (rejected_names imageName vulnerabilities whitelist).
  - reflexivity.
Qed.

(** C2: a finding whose name is a key of the general whitelist never has its
    name in the rejected list, whatever its severity and namespace, the
    other findings and the image name. *)
Theorem general_whitelist_never_rejected (imageName : string)
    (whitelist : vulnerabilitiesWhitelist) (vulnerabilities : list vulnerabilityInfo)
    (f : vulnerabilityInfo) :
  f ∈ vulnerabilities →
  is_Some (GeneralWhitelist whitelist !! vulnerability f) →
  vulnerability f ∉ unapproved_of imageName vulnerabilities whitelist.
Proof.
  intros _ Hg. apply whitelisted_not_unapproved. by left.
Qed.

Lemma general_whitelist_never_rejected_witness :
  "CVE-2020-1" ∉ unapproved_of "myapp:1.0"
     ({| vulnerability := "CVE-2020-1"; namespace := "os"; severity := "High" |}
      :: scenario_findings)
     {| GeneralWhitelist := {[ "CVE-2020-1" := "x" ]}; Images := ∅ |}.
Proof.
  apply (general_whitelist_never_rejected "myapp:1.0"
           {| GeneralWhitelist := {[ "CVE-2020-1" := "x" ]}; Images := ∅ |}
           ({| vulnerability := "CVE-2020-1"; namespace := "os"; severity := "High" |}
            :: scenario_findings)
           {| vulnerability := "CVE-2020-1"; namespace := "os"; severity := "High" |}).
  - left.
  - exists "x". vm_compute. reflexivity.
Defined.

(** C3: the key under which the per-image whitelist is looked up is the
    image name truncated before its first [:], and a finding whose name is a
    key of that entry never has its name in the rejected list. *)
Theorem image_whitelist_never_rejected (imageName : string)
    (whitelist : vulnerabilitiesWhitelist) (vulnerabilities : list vulnerabilityInfo)
    (f : vulnerabilityInfo) (entry : gmap string string) :
  f ∈ vulnerabilities →
  Images whitelist !! imageKey imageName = Some entry →
  is_Some (entry !! vulnerability f) →
  getImageVulnerabilities imageName (Images whitelist) = entry
  ∧ vulnerability f ∉ unapproved_of imageName vulnerabilities whitelist.
Proof.
  intros _ Hentry Hname. split.
  - by rewrite getImageVulnerabilities_lookup, Hentry.
  - apply whitelisted_not_unapproved. right. unfold covered_image. by rewrite Hentry.
Qed.

Lemma image_whitelist_never_rejected_witness :
  getImageVulnerabilities "myapp:1.0" (Images scenario_whitelist_image)
  = {[ "CVE-2020-1" := "ok" ]}
  ∧ "CVE-2020-1" ∉ unapproved_of "myapp:1.0" scenario_findings scenario_whitelist_image.
Proof.
  apply (image_whitelist_never_rejected "myapp:1.0" scenario_whitelist_image
           scenario_findings
           {| vulnerability := "CVE-2020-1"; namespace := "os"; severity := "High" |}
           {[ "CVE-2020-1" := "ok" ]}).
  - left.
  - vm_compute. reflexivity.
  - exists "ok". vm_compute. reflexivity.
Defined.

Lemma whitelisted_agree imageName wl1 wl2 name :
  GeneralWhitelist wl1 = GeneralWhitelist wl2 →
  Images wl1 !! imageKey imageName = Images wl2 !! imageKey imageName →
  whitelisted wl1 imageName name ↔ whitelisted wl2 imageName name.
Proof.
  intros Hg Hi. unfold whitelisted, covered_general, covered_image.
  by rewrite Hg, Hi.
Qed.

(** C8: two whitelists with the same general mapping and the same per-image
    entry under the image key of the scanned image give the same result,
    whatever they hold under other keys. *)
Theorem other_image_entries_ignored (imageName : string)
    (vulnerabilities : list vulnerabilityInfo) (wl1 wl2 : vulnerabilitiesWhitelist) :
  GeneralWhitelist wl1 = GeneralWhitelist wl2 →
  Images wl1 !! imageKey imageName = Images wl2 !! imageKey imageName →
  vulnerabilitiesApproved imageName vulnerabilities wl1
  = vulnerabilitiesApproved imageName vulnerabilities wl2.
Proof.
  intros Hg Hi. rewrite !vulnerabilitiesApproved_rejected_names.
  assert (rejected_names imageName vulnerabilities wl1
          = rejected_names imageName vulnerabilities wl2) as ->; [| done].
  unfold rejected_names. f_equal. apply list_filter_iff. intros f.
  by rewrite (whitelisted_agree imageName wl1 wl2).
Qed.

Lemma other_image_entries_ignored_witness :
  vulnerabilitiesApproved "myapp:1.0" scenario_findings scenario_whitelist_image
  = vulnerabilitiesApproved "myapp:1.0" scenario_findings
      {| GeneralWhitelist := ∅;
         Images := {[ "myapp" := {[ "CVE-2020-1" := "ok" ]};
                      "other" := {[ "CVE-2020-2" := "fine there" ]} ]} |}.
Proof.
  apply (other_image_entries_ignored "myapp:1.0" scenario_findings scenario_whitelist_image
           {| GeneralWhitelist := ∅;
              Images := {[ "myapp" := {[ "CVE-2020-1" := "ok" ]};
                           "other" := {[ "CVE-2020-2" := "fine there" ]} ]} |}).
  - reflexivity.
  - vm_compute. reflexivity.
Defined.

(** C9: the approval of a findings list and of any permutation of it agree:
    both are approved or both rejected, the rejected names are the same up
    to their order, and in both a finding's name is rejected exactly when
    the finding is not whitelisted. *)
Theorem decision_order_insensitive (imageName : string)
    (whitelist : vulnerabilitiesWhitelist) (vs vs' : list vulnerabilityInfo) :
  vs ≡ₚ vs' →
  approved (vulnerabilitiesApproved imageName vs whitelist)
  = approved (vulnerabilitiesApproved imageName vs' whitelist)
  ∧ unapproved_of imageName vs whitelist ≡ₚ unapproved_of imageName vs' whitelist
  ∧ ∀ f, f ∈ vs →
      (vulnerability f ∈ unapproved_of imageName vs whitelist
       ↔ ¬ whitelisted whitelist imageName (vulnerability f))
      ∧ (vulnerability f ∈ unapproved_of imageName vs' whitelist
         ↔ ¬ whitelisted whitelist imageName (vulnerability f)).
Proof.
  intros Hperm.
  assert (rejected_names imageName vs whitelist ≡ₚ rejected_names imageName vs' whitelist)
    as Hr by (unfold rejected_names; by rewrite Hperm).
  split; [| split].
  - rewrite !vulnerabilitiesApproved_rejected_names.
    destruct (rejected_names imageName vs whitelist) as [|n ns].
    + symmetry in Hr. apply Permutation_nil_r in Hr. by rewrite Hr.
    + destruct (rejected_names imageName vs' whitelist); [| done].
      by apply Permutation_nil_r in Hr.
  - by rewrite !unapproved_of_rejected_names.
  - intros f Hf. rewrite !unapproved_of_rejected_names, !elem_of_rejected_names.
    split; (split; [by intros (? & _ & _ & ?) |]); intros Hnw; exists f.
    + done.
    + by rewrite <- Hperm.
Qed.

Lemma decision_order_insensitive_witness :
  approved (vulnerabilitiesApproved "myapp:1.0" scenario_findings scenario_whitelist_image)
  = approved (vulnerabilitiesApproved "myapp:1.0" (reverse scenario_findings)
                scenario_whitelist_image)
  ∧ unapproved_of "myapp:1.0" scenario_findings scenario_whitelist_image
    ≡ₚ unapproved_of "myapp:1.0" (reverse scenario_findings) scenario_whitelist_image
  ∧ ∀ f, f ∈ scenario_findings →
      (vulnerability f ∈ unapproved_of "myapp:1.0" scenario_findings scenario_whitelist_image
       ↔ ¬ whitelisted scenario_whitelist_image "myapp:1.0" (vulnerability f))
      ∧ (vulnerability f
           ∈ unapproved_of "myapp:1.0" (reverse scenario_findings) scenario_whitelist_image
         ↔ ¬ whitelisted scenario_whitelist_image "myapp:1.0" (vulnerability f)).
Proof.
  apply (decision_order_insensitive "myapp:1.0" scenario_whitelist_image
           scenario_findings (reverse scenario_findings)).
  vm_compute. apply perm_swap.
Defined.

(** ** The analyzer client *)

Lemma Sprintf_getLayerFeaturesURI (layerID : string) :
  Sprintf getLayerFeaturesURI [ArgString layerID]
  = "/v1/layers/" +:+ layerID +:+ "?vulnerabilities".
Proof. reflexivity. Qed.

Lemma Sprintf_got_response (status : Z) (body : string) :
  Sprintf "Got response %d with message %s" [ArgInt status; ArgString body]
  = "Got response " +:+ Itoa status +:+ " with message " +:+ body.
Proof.
  cbn [Sprintf fmt_d fmt_s]. rewrite string_app_nil_r. reflexivity.
Qed.

(** Reading the response does nothing to the outside world, and it ends by
    returning or by the nil dereference, never by leaving the process. *)
Lemma readLayerResponse_cases (a : Analyzer) (response : http_Response) :
  trace (readLayerResponse a response) = []
  ∧ ((∃ r, result (readLayerResponse a response) = Returned r)
     ∨ result (readLayerResponse a response) = Panicked nil_dereference).
Proof.
  unfold readLayerResponse.
  case_bool_decide; [split; [done | left; eauto] |].
  destruct (json_Decode a (Body response)) as [apiResponse | err];
    [| split; [done | left; eauto]].
  destruct (EnvelopeError apiResponse); [split; [done | left; eauto] |].
  destruct (Layer apiResponse); [split; [done | left; eauto] |].
  split; [done | by right].
Qed.

(** [fetchLayerVulnerabilities], step by step: one GET, the body closed when
    there is a response, and the result of reading the response. *)
Lemma fetchLayerVulnerabilities_run (a : Analyzer) (clairURL layerID : string) :
  fetchLayerVulnerabilities a clairURL layerID
  = match http_Get a (clairURL +:+ Sprintf getLayerFeaturesURI [ArgString layerID]) with
    | inr err =>
        ([EvHttpGet (clairURL +:+ Sprintf getLayerFeaturesURI [ArgString layerID])],
         Returned (v1_Layer_zero, Some err))
    | inl response =>
        ([EvHttpGet (clairURL +:+ Sprintf getLayerFeaturesURI [ArgString layerID]);
          EvBodyClose],
         result (readLayerResponse a response))
    end.
Proof.
  unfold fetchLayerVulnerabilities.
  destruct (http_Get a _) as [response | err]; [| reflexivity].
  destruct (readLayerResponse_cases a response) as [Ht Hr].
  destruct (readLayerResponse a response) as [t o]. simpl in Ht, Hr. subst t.
  destruct Hr as [[r ->] | ->]; reflexivity.
Qed.

Lemma slice_index_last {A} (s : list A) (x : A) :
  last s = Some x → slice_index s (Z.of_nat (length s) - 1) = ret x.
Proof.
  intros Hlast. unfold slice_index.
  assert (0 < length s) by (destruct s; [discriminate | simpl; lia]).
  rewrite bool_decide_true by lia.
  replace (Z.to_nat (Z.of_nat (length s) - 1)) with (pred (length s)) by lia.
  by rewrite <- last_lookup, Hlast.
Qed.

(** On an empty slice of layers the index [len(layerIds)-1] is out of range. *)
Lemma getVulnerabilities_no_layers (a : Analyzer) (clairURL : string) :
  getVulnerabilities a clairURL []
  = ([], Panicked "runtime error: index out of range [-1]").
Proof. reflexivity. Qed.

Lemma queried_app (t t' : list event) : queried (t ++ t') = queried t ++ queried t'.
Proof. apply omap_app. Qed.

(** [getVulnerabilities] on a slice whose last element is [top]. *)
Lemma getVulnerabilities_run (a : Analyzer) (clairURL : string) (layerIds : list string)
    (top : string) :
  last layerIds = Some top →
  getVulnerabilities a clairURL layerIds
  = bind (fetchLayerVulnerabilities a clairURL top) (λ r,
      match r.2 with
      | Some e => ret ([], Some e)
      | None =>
          if bool_decide (length (Features r.1) = 0) then
            bind (fmt_Printf no_features_note [ArgString (color_YellowString a "NOTE:")])
                 (λ _, ret ([], None))
          else ret (range_features (Features r.1) [], None)
      end).
Proof.
  intros Hlast. unfold getVulnerabilities. rewrite (slice_index_last _ _ Hlast).
  unfold ret at 1. unfold bind at 1.
  destruct (fetchLayerVulnerabilities a clairURL top) as [t [[raw err] | msg | code]];
    [| reflexivity..].
  destruct err as [e|]; [reflexivity |]. cbn [bind snd fst].
  case_bool_decide; reflexivity.
Qed.

(** C5: on a non-empty slice of layer IDs, [getVulnerabilities] sends the
    analyzer exactly one request, for the report of the last layer ID. *)
Theorem getVulnerabilities_queries_last (a : Analyzer) (clairURL : string)
    (layerIds : list string) :
  layerIds ≠ [] →
  ∃ top, last layerIds = Some top
    ∧ queried (trace (getVulnerabilities a clairURL layerIds))
      = [clairURL +:+ "/v1/layers/" +:+ top +:+ "?vulnerabilities"].
Proof.
  intros Hne.
  destruct (last layerIds) as [top|] eqn:Hlast; [| by apply last_None in Hlast].
  exists top. split; [done |].
  rewrite (getVulnerabilities_run a clairURL layerIds top Hlast),
    fetchLayerVulnerabilities_run, Sprintf_getLayerFeaturesURI.
  destruct (http_Get a _) as [response | err]; [| reflexivity].
  destruct (readLayerResponse_cases a response) as [_ [[[raw err] ->] | ->]];
    [| reflexivity].
  destruct err as [e|]; [reflexivity |]. cbn [bind snd fst].
  case_bool_decide; reflexivity.
Qed.

Lemma getVulnerabilities_queries_last_witness :
  ∃ top, last ["L1"; "L2"; "L3"] = Some top
    ∧ queried (trace (getVulnerabilities scenario_analyzer "http://clair:6060"
                        ["L1"; "L2"; "L3"]))
      = ["http://clair:6060" +:+ "/v1/layers/" +:+ top +:+ "?vulnerabilities"].
Proof.
  apply (getVulnerabilities_queries_last scenario_analyzer "http://clair:6060"
           ["L1"; "L2"; "L3"]).
  discriminate.
Defined.

Lemma readLayerResponse_layer (a : Analyzer) (response : http_Response)
    (apiResponse : v1_LayerEnvelope) :
  StatusCode response = 200%Z →
  json_Decode a (Body response) = inl apiResponse →
  EnvelopeError apiResponse = None →
  readLayerResponse a response
  = match Layer apiResponse with
    | Some l => ret (l, None)
    | None => panic nil_dereference
    end.
Proof.
  intros Hstatus Hdecode Herror. unfold readLayerResponse.
  rewrite bool_decide_false by (by rewrite Hstatus; intros []).
  by rewrite Hdecode, Herror.
Qed.

(** C6: when the analyzer answers the request for the last layer with a
    layer that has no features, [getVulnerabilities] prints the note and
    returns the empty findings list with a nil error; the empty list is
    approved, and [start] goes on without a fatal exit. *)
Theorem zero_features_is_not_an_error (a : Analyzer) (clairURL : string)
    (layerIds : list string) (top : string) (response : http_Response)
    (apiResponse : v1_LayerEnvelope) (layer : v1_Layer)
    (imageName : string) (whitelist : vulnerabilitiesWhitelist) :
  last layerIds = Some top →
  http_Get a (clairURL +:+ Sprintf getLayerFeaturesURI [ArgString top]) = inl response →
  StatusCode response = 200%Z →
  json_Decode a (Body response) = inl apiResponse →
  EnvelopeError apiResponse = None →
  Layer apiResponse = Some layer →
  Features layer = [] →
  getVulnerabilities a clairURL layerIds
  = ([EvHttpGet (clairURL +:+ "/v1/layers/" +:+ top +:+ "?vulnerabilities");
      EvBodyClose;
      EvStdout (Sprintf no_features_note [ArgString (color_YellowString a "NOTE:")])],
     Returned ([], None))
  ∧ vulnerabilitiesApproved imageName [] whitelist = None
  ∧ result (start_decide a imageName whitelist clairURL layerIds) = Returned tt.
Proof.
  intros Hlast Hget Hstatus Hdecode Herror Hlayer Hfeatures.
  assert (getVulnerabilities a clairURL layerIds
          = ([EvHttpGet (clairURL +:+ "/v1/layers/" +:+ top +:+ "?vulnerabilities");
              EvBodyClose;
              EvStdout (Sprintf no_features_note
                          [ArgString (color_YellowString a "NOTE:")])],
             Returned ([], None))) as Hrun.
  { rewrite (getVulnerabilities_run a clairURL layerIds top Hlast),
      fetchLayerVulnerabilities_run, Hget,
      (readLayerResponse_layer a response apiResponse Hstatus Hdecode Herror), Hlayer.
    cbn [ret result snd bind fst]. rewrite Hfeatures.
    reflexivity. }
  split; [done |]. split; [reflexivity |].
  unfold start_decide. rewrite Hrun. reflexivity.
Qed.

Lemma zero_features_is_not_an_error_witness :
  getVulnerabilities
    (stub_analyzer 200 "empty layer"
       (inl {| Layer := Some v1_Layer_zero; EnvelopeError := None |}))
    "http://clair:6060" ["L1"; "L2"]
  = ([EvHttpGet ("http://clair:6060" +:+ "/v1/layers/" +:+ "L2" +:+ "?vulnerabilities");
      EvBodyClose;
      EvStdout (Sprintf no_features_note [ArgString "NOTE:"])],
     Returned ([], None))
  ∧ vulnerabilitiesApproved "myapp:1.0" [] scenario_whitelist_image = None
  ∧ result (start_decide
              (stub_analyzer 200 "empty layer"
                 (inl {| Layer := Some v1_Layer_zero; EnvelopeError := None |}))
              "myapp:1.0" scenario_whitelist_image "http://clair:6060" ["L1"; "L2"])
    = Returned tt.
Proof.
  apply (zero_features_is_not_an_error
           (stub_analyzer 200 "empty layer"
              (inl {| Layer := Some v1_Layer_zero; EnvelopeError := None |}))
           "http://clair:6060" ["L1"; "L2"] "L2"
           {| StatusCode := 200; Body := "empty layer" |}
           {| Layer := Some v1_Layer_zero; EnvelopeError := None |}
           v1_Layer_zero "myapp:1.0" scenario_whitelist_image); reflexivity.
Defined.

(** C7: when the status of the response is not 200, or the status is 200 and
    the body decodes to an envelope with an error object,
    [fetchLayerVulnerabilities] returns the zero layer and an error; the
    message is [Got response <status> with message <body>] in the first case
    and the message of the envelope's error object in the second. *)
Theorem fetch_failure_is_an_error (a : Analyzer) (clairURL layerID : string)
    (response : http_Response) (msg : string) :
  http_Get a (clairURL +:+ Sprintf getLayerFeaturesURI [ArgString layerID]) = inl response →
  (StatusCode response ≠ 200%Z
   ∧ msg = "Got response " +:+ Itoa (StatusCode response)
             +:+ " with message " +:+ Body response)
  ∨ (StatusCode response = 200%Z
     ∧ ∃ apiResponse e,
         json_Decode a (Body response) = inl apiResponse
         ∧ EnvelopeError apiResponse = Some e
         ∧ msg = Message e) →
  result (fetchLayerVulnerabilities a clairURL layerID)
  = Returned (v1_Layer_zero, Some (errorString msg)).
Proof.
  intros Hget Hcase. rewrite fetchLayerVulnerabilities_run, Hget.
  unfold readLayerResponse.
  destruct Hcase as [[Hstatus ->] | [Hstatus (apiResponse & e & Hdecode & Herror & ->)]].
  - rewrite bool_decide_true by done. unfold Errorf.
    by rewrite Sprintf_got_response.
  - rewrite bool_decide_false by (by rewrite Hstatus; intros []).
    by rewrite Hdecode, Herror.
Qed.

Lemma fetch_failure_is_an_error_witness :
  result (fetchLayerVulnerabilities
            (stub_analyzer 404 "layer unknown" (inr (errorString "not reached")))
            "http://clair:6060" "L3")
  = Returned (v1_Layer_zero,
              Some (errorString "Got response 404 with message layer unknown"))
  ∧ result (fetchLayerVulnerabilities
              (stub_analyzer 200 "error envelope"
                 (inl {| Layer := Some scenario_layer;
                         EnvelopeError := Some {| Message := "database down" |} |}))
              "http://clair:6060" "L3")
    = Returned (v1_Layer_zero, Some (errorString "database down")).
Proof.
  split.
  - apply (fetch_failure_is_an_error
             (stub_analyzer 404 "layer unknown" (inr (errorString "not reached")))
             "http://clair:6060" "L3"
             {| StatusCode := 404; Body := "layer unknown" |}
             "Got response 404 with message layer unknown").
    + reflexivity.
    + left. split; [discriminate | vm_compute; reflexivity].
  - apply (fetch_failure_is_an_error
             (stub_analyzer 200 "error envelope"
                (inl {| Layer := Some scenario_layer;
                        EnvelopeError := Some {| Message := "database down" |} |}))
             "http://clair:6060" "L3"
             {| StatusCode := 200; Body := "error envelope" |}
             "database down").
    + reflexivity.
    + right. split; [reflexivity |].
      exists {| Layer := Some scenario_layer;
                EnvelopeError := Some {| Message := "database down" |} |},
             {| Message := "database down" |}.
      repeat split.
Defined.

(** A returned layer with a nil error comes from a 200 response whose
    envelope has no error object and has that layer. *)
Lemma fetch_layer_from_envelope (a : Analyzer) (clairURL layerID : string) (l : v1_Layer) :
  result (fetchLayerVulnerabilities a clairURL layerID) = Returned (l, None) →
  ∃ response apiResponse,
    http_Get a (clairURL +:+ Sprintf getLayerFeaturesURI [ArgString layerID]) = inl response
    ∧ StatusCode response = 200%Z
    ∧ json_Decode a (Body response) = inl apiResponse
    ∧ EnvelopeError apiResponse = None
    ∧ Layer apiResponse = Some l.
Proof.
  rewrite fetchLayerVulnerabilities_run.
  destruct (http_Get a _) as [response | err]; [| discriminate].
  unfold readLayerResponse. cbn [result snd].
  case_bool_decide as Hstatus; [discriminate |].
  destruct (json_Decode a (Body response)) as [apiResponse | err] eqn:Hdecode;
    [| discriminate].
  destruct (EnvelopeError apiResponse) eqn:Herror; [discriminate |].
  destruct (Layer apiResponse) as [l' |] eqn:Hlayer; [| discriminate].
  intros [= ->]. exists response, apiResponse.
  repeat split; done.
Qed.

(** C10: on a 200 response whose body decodes to an envelope without an
    error object, [fetchLayerVulnerabilities] dereferences the layer field:
    it returns the layer with a nil error when the field is set and stops on
    a nil pointer dereference when it is not, so it returns without error
    only when the envelope holds a layer. *)
Theorem fetch_dereferences_layer (a : Analyzer) (clairURL layerID : string)
    (response : http_Response) (apiResponse : v1_LayerEnvelope) :
  http_Get a (clairURL +:+ Sprintf getLayerFeaturesURI [ArgString layerID]) = inl response →
  StatusCode response = 200%Z →
  json_Decode a (Body response) = inl apiResponse →
  EnvelopeError apiResponse = None →
  result (fetchLayerVulnerabilities a clairURL layerID)
  = match Layer apiResponse with
    | Some l => Returned (l, None)
    | None => Panicked nil_dereference
    end
  ∧ ∀ l err, result (fetchLayerVulnerabilities a clairURL layerID) = Returned (l, err) →
      err = None ∧ Layer apiResponse = Some l.
Proof.
  intros Hget Hstatus Hdecode Herror.
  rewrite fetchLayerVulnerabilities_run, Hget,
    (readLayerResponse_layer a response apiResponse Hstatus Hdecode Herror).
  destruct (Layer apiResponse) as [l0 |]; cbn [result snd ret panic].
  - split; [done |]. by intros l err [= -> ->].
  - split; [done |]. discriminate.
Qed.

Lemma fetch_dereferences_layer_witness :
  result (fetchLayerVulnerabilities
            (stub_analyzer 200 "{}" (inl {| Layer := None; EnvelopeError := None |}))
            "http://clair:6060" "L3")
  = Panicked nil_dereference
  ∧ ∀ l err,
      result (fetchLayerVulnerabilities
                (stub_analyzer 200 "{}" (inl {| Layer := None; EnvelopeError := None |}))
                "http://clair:6060" "L3") = Returned (l, err) →
      err = None ∧ None = Some l.
Proof.
  apply (fetch_dereferences_layer
           (stub_analyzer 200 "{}" (inl {| Layer := None; EnvelopeError := None |}))
           "http://clair:6060" "L3"
           {| StatusCode := 200; Body := "{}" |}
           {| Layer := None; EnvelopeError := None |}); reflexivity.
Defined.

(** ** The scan orchestrator *)

Lemma signal_callback_run (s : string) :
  signal_callback s = ([EvLog ("Application interupted " +:+ s)], Exited 1).
Proof.
  unfold signal_callback, log_Fatalf. cbn [Sprintf fmt_v fmt_s].
  by rewrite string_app_nil_r.
Qed.

Lemma start_decide_rejected (a : Analyzer) (imageName : string)
    (whitelist : vulnerabilitiesWhitelist) (clairURL : string) (layerIds : list string)
    (t : list event) (vulnerabilities : list vulnerabilityInfo) (e : error) :
  getVulnerabilities a clairURL layerIds = (t, Returned (vulnerabilities, None)) →
  vulnerabilitiesApproved imageName vulnerabilities whitelist = Some e →
  start_decide a imageName whitelist clairURL layerIds
  = (t ++ [EvLog ("Image contains unapproved vulnerabilities: " +:+ Error e)], Exited 1).
Proof.
  intros Hget Hdecision. unfold start_decide. rewrite Hget.
  cbn [bind ret app]. rewrite Hdecision.
  unfold log_Fatalf. cbn [Sprintf fmt_s emit os_Exit bind app].
  by rewrite string_app_nil_r.
Qed.

Lemma start_decide_failed (a : Analyzer) (imageName : string)
    (whitelist : vulnerabilitiesWhitelist) (clairURL : string) (layerIds : list string)
    (t : list event) (vulnerabilities : list vulnerabilityInfo) (e : error) :
  getVulnerabilities a clairURL layerIds = (t, Returned (vulnerabilities, Some e)) →
  start_decide a imageName whitelist clairURL layerIds
  = (t ++ [EvLog ("Analyzing failed: " +:+ Error e)], Exited 1).
Proof.
  intros Hget. unfold start_decide. rewrite Hget.
  unfold log_Fatalf. cbn [Sprintf fmt_s emit os_Exit bind app].
  by rewrite string_app_nil_r.
Qed.

Lemma start_decide_approved (a : Analyzer) (imageName : string)
    (whitelist : vulnerabilitiesWhitelist) (clairURL : string) (layerIds : list string)
    (t : list event) (vulnerabilities : list vulnerabilityInfo) :
  getVulnerabilities a clairURL layerIds = (t, Returned (vulnerabilities, None)) →
  vulnerabilitiesApproved imageName vulnerabilities whitelist = None →
  start_decide a imageName whitelist clairURL layerIds = (t, Returned tt).
Proof.
  intros Hget Hdecision. unfold start_decide. rewrite Hget.
  cbn [bind ret app]. rewrite Hdecision. unfold ret. by rewrite app_nil_r.
Qed.

Section Runs.
Context (c : Collaborators) (a : Analyzer).
Context (imageName : string) (whitelist : vulnerabilitiesWhitelist).
Context (clairURL scannerIP : string).
Context (tmpPath : string) (layerIds : list string) (server : Server c).
Context (t_tmp t_save t_ids t_serve t_analyze : list event).

(** The collaborators all return. *)
Hypothesis createTmpPath_returns : createTmpPath c tmpPrefix = (t_tmp, Returned tmpPath).
Hypothesis saveDockerImage_returns :
  saveDockerImage c imageName tmpPath = (t_save, Returned tt).
Hypothesis getImageLayerIds_returns :
  getImageLayerIds c tmpPath = (t_ids, Returned layerIds).
Hypothesis httpFileServer_returns :
  httpFileServer c tmpPath (Itoa httpPort) = (t_serve, Returned server).
Hypothesis analyzeLayers_returns :
  analyzeLayers c layerIds clairURL scannerIP = (t_analyze, Returned tt).

Local Abbreviation run_prefix :=
  (t_tmp ++ [EvGo "listenForSignal"] ++ t_save ++ t_ids ++ t_serve ++ t_analyze).

(** When [start_decide] leaves the process, [start] stops there: neither
    deferred call runs. *)
Lemma start_exit (t : list event) (code : Z) :
  start_decide a imageName whitelist clairURL layerIds = (t, Exited code) →
  start c a imageName whitelist clairURL scannerIP = (run_prefix ++ t, Exited code).
Proof.
  intros Hdecide. unfold start.
  rewrite createTmpPath_returns. cbn [bind emit].
  rewrite saveDockerImage_returns. cbn [bind].
  rewrite getImageLayerIds_returns. cbn [bind].
  rewrite httpFileServer_returns. cbn [bind].
  rewrite analyzeLayers_returns. cbn [bind].
  rewrite Hdecide. cbn [defer]. f_equal.
  by rewrite <- !app_assoc.
Qed.

(** When [start_decide] returns and the server shuts down, both deferred
    calls run, the shutdown first. *)
Lemma start_return (t t_down : list event) (down : option error) :
  start_decide a imageName whitelist clairURL layerIds = (t, Returned tt) →
  Shutdown c server = (t_down, Returned down) →
  start c a imageName whitelist clairURL scannerIP
  = (run_prefix ++ t ++ t_down ++ [EvRemoveAll tmpPath], Returned tt).
Proof.
  intros Hdecide Hdown. unfold start.
  rewrite createTmpPath_returns. cbn [bind emit].
  rewrite saveDockerImage_returns. cbn [bind].
  rewrite getImageLayerIds_returns. cbn [bind].
  rewrite httpFileServer_returns. cbn [bind].
  rewrite analyzeLayers_returns. cbn [bind].
  rewrite Hdecide. cbn [defer]. rewrite Hdown.
  unfold os_RemoveAll. cbn [defer bind emit ret]. f_equal.
  rewrite app_nil_r. by rewrite <- !app_assoc.
Qed.
End Runs.

(** C4, which the code does not meet: [start] removes the workspace
    directory once when it returns, and not at all when it ends in
    [log.Fatalf], as it does when the image has an unapproved vulnerability:
    the process exits with status 1 and the deferred [os.RemoveAll] does not
    run. *)
Theorem start_fatal_exit_leaves_workspace :
  scenario_run scenario_whitelist_general
  = ([EvCall "createTmpPath" ["clair-scanner-"];
      EvGo "listenForSignal";
      EvCall "saveDockerImage" ["myapp:1.0"; "/tmp/clair-scanner-0"];
      EvCall "getImageLayerIds" ["/tmp/clair-scanner-0"];
      EvCall "httpFileServer" ["/tmp/clair-scanner-0"; "9279"];
      EvCall "analyzeLayers" ["L1"; "L2"; "L3"; "http://clair:6060"; "localhost"];
      EvHttpGet "http://clair:6060/v1/layers/L3?vulnerabilities";
      EvBodyClose;
      EvCall "Shutdown" [];
      EvRemoveAll "/tmp/clair-scanner-0"],
     Returned tt)
  ∧ removals "/tmp/clair-scanner-0" (trace (scenario_run scenario_whitelist_general)) = 1
  ∧ scenario_run scenario_whitelist_image
    = ([EvCall "createTmpPath" ["clair-scanner-"];
        EvGo "listenForSignal";
        EvCall "saveDockerImage" ["myapp:1.0"; "/tmp/clair-scanner-0"];
        EvCall "getImageLayerIds" ["/tmp/clair-scanner-0"];
        EvCall "httpFileServer" ["/tmp/clair-scanner-0"; "9279"];
        EvCall "analyzeLayers" ["L1"; "L2"; "L3"; "http://clair:6060"; "localhost"];
        EvHttpGet "http://clair:6060/v1/layers/L3?vulnerabilities";
        EvBodyClose;
        EvLog "Image contains unapproved vulnerabilities: [CVE-2020-2]"],
       Exited 1)
  ∧ removals "/tmp/clair-scanner-0" (trace (scenario_run scenario_whitelist_image)) = 0.
Proof. vm_compute. repeat split. Qed.

(** X16: the same on any run whose collaborators return: a rejection ends
    the process right after the log line, before any deferred call. *)
Lemma start_rejected_run (c : Collaborators) (a : Analyzer) (imageName : string)
    (whitelist : vulnerabilitiesWhitelist) (clairURL scannerIP tmpPath : string)
    (layerIds : list string) (server : Server c)
    (t_tmp t_save t_ids t_serve t_analyze t : list event)
    (vulnerabilities : list vulnerabilityInfo) (e : error) :
  createTmpPath c tmpPrefix = (t_tmp, Returned tmpPath) →
  saveDockerImage c imageName tmpPath = (t_save, Returned tt) →
  getImageLayerIds c tmpPath = (t_ids, Returned layerIds) →
  httpFileServer c tmpPath (Itoa httpPort) = (t_serve, Returned server) →
  analyzeLayers c layerIds clairURL scannerIP = (t_analyze, Returned tt) →
  getVulnerabilities a clairURL layerIds = (t, Returned (vulnerabilities, None)) →
  vulnerabilitiesApproved imageName vulnerabilities whitelist = Some e →
  start c a imageName whitelist clairURL scannerIP
  = ((t_tmp ++ [EvGo "listenForSignal"] ++ t_save ++ t_ids ++ t_serve ++ t_analyze)
       ++ t ++ [EvLog ("Image contains unapproved vulnerabilities: " +:+ Error e)],
     Exited 1).
Proof.
  intros Htmp Hsave Hids Hserve Hanalyze Hget Hdecision.
  apply (start_exit c a imageName whitelist clairURL scannerIP tmpPath layerIds server);
    try done.
  by apply (start_decide_rejected _ _ _ _ _ _ vulnerabilities).
Qed.

(** The scenarios of the design document, on the code. *)
Example scenario_rejected :
  vulnerabilitiesApproved "myapp:1.0" scenario_findings scenario_whitelist_image
  = Some (errorString "[CVE-2020-2]").
Proof. vm_compute. reflexivity. Qed.

Example scenario_approved :
  vulnerabilitiesApproved "myapp:1.0" scenario_findings scenario_whitelist_general = None.
Proof. vm_compute. reflexivity. Qed.

Example scenario_repeated_finding :
  vulnerabilitiesApproved "myapp" (scenario_findings ++ scenario_findings)
    scenario_whitelist_image
  = Some (errorString "[CVE-2020-2 CVE-2020-2]").
Proof. vm_compute. reflexivity. Qed.

(** ** Further properties of the approval engine *)

(** The local [vulnerable] is still true after the two lookups exactly when
    the name is a key of neither map; the test on the length of the per-image
    map changes nothing. *)
Lemma vulnerable_after_lookup (whitelist : vulnerabilitiesWhitelist)
    (entry : gmap string string) (name : string) :
  vulnerable_after whitelist entry name = true
  ↔ GeneralWhitelist whitelist !! name = None ∧ entry !! name = None.
Proof.
  unfold vulnerable_after.
  case_bool_decide as Hg; simpl.
  { split; [done |]. intros [Hnone _]. rewrite Hnone in Hg. by destruct Hg. }
  apply eq_None_not_Some in Hg.
  case_bool_decide as Hsize.
  - case_bool_decide as He.
    + split; [done |]. intros [_ Hnone]. rewrite Hnone in He. by destruct He.
    + apply eq_None_not_Some in He. done.
  - assert (entry = ∅) as -> by (apply map_size_empty_iff; lia).
    by rewrite lookup_empty.
Qed.

Lemma filter_sublist_impl {A} (P Q : A → Prop) `{!∀ x, Decision (P x)}
    `{!∀ x, Decision (Q x)} (l : list A) :
  (∀ x, P x → Q x) → filter P l `sublist_of` filter Q l.
Proof.
  intros HPQ. induction l as [|x l IH]; [done |].
  rewrite !filter_cons. destruct (decide (P x)) as [HP | HnP].
  - rewrite decide_True by auto. by apply sublist_skip.
  - destruct (decide (Q x)); [by apply sublist_cons | done].
Qed.

(** X1: the rejected names of a concatenation of findings are those of the
    first part followed by those of the second, so a concatenation is
    approved exactly when both parts are. *)
Theorem unapproved_of_app (imageName : string) (vs1 vs2 : list vulnerabilityInfo)
    (whitelist : vulnerabilitiesWhitelist) :
  unapproved_of imageName (vs1 ++ vs2) whitelist
  = unapproved_of imageName vs1 whitelist ++ unapproved_of imageName vs2 whitelist
  ∧ approved (vulnerabilitiesApproved imageName (vs1 ++ vs2) whitelist)
    = approved (vulnerabilitiesApproved imageName vs1 whitelist)
      && approved (vulnerabilitiesApproved imageName vs2 whitelist).
Proof.
  assert (rejected_names imageName (vs1 ++ vs2) whitelist
          = rejected_names imageName vs1 whitelist
            ++ rejected_names imageName vs2 whitelist) as Happ.
  { unfold rejected_names. by rewrite filter_app, fmap_app. }
  split.
  - by rewrite !unapproved_of_rejected_names.
  - rewrite !vulnerabilitiesApproved_rejected_names, Happ.
    destruct (rejected_names imageName vs1 whitelist);
      destruct (rejected_names imageName vs2 whitelist); done.
Qed.

(** X2: a whitelist with more keys rejects no more: when the general mapping
    and the per-image entry used for the image only grow, the rejected names
    are a sublist of the former ones, and an approved findings list stays
    approved. *)
Theorem whitelist_growth_rejects_less (imageName : string)
    (vulnerabilities : list vulnerabilityInfo) (wl wl' : vulnerabilitiesWhitelist) :
  GeneralWhitelist wl ⊆ GeneralWhitelist wl' →
  getImageVulnerabilities imageName (Images wl)
    ⊆ getImageVulnerabilities imageName (Images wl') →
  unapproved_of imageName vulnerabilities wl'
    `sublist_of` unapproved_of imageName vulnerabilities wl
  ∧ (vulnerabilitiesApproved imageName vulnerabilities wl = None →
     vulnerabilitiesApproved imageName vulnerabilities wl' = None).
Proof.
  intros Hg Hi.
  assert (unapproved_of imageName vulnerabilities wl'
            `sublist_of` unapproved_of imageName vulnerabilities wl) as Hsub.
  { unfold unapproved_of. rewrite !approval_loop_filter. simpl.
    apply fmap_sublist, filter_sublist_impl. intros f.
    rewrite !vulnerable_after_lookup. intros [Hn1 Hn2]. split.
    - destruct (GeneralWhitelist wl !! vulnerability f) as [d|] eqn:Hl; [| done].
      by rewrite (lookup_weaken _ _ _ _ Hl Hg) in Hn1.
    - destruct (getImageVulnerabilities imageName (Images wl) !! vulnerability f)
        as [d|] eqn:Hl; [| done].
      by rewrite (lookup_weaken _ _ _ _ Hl Hi) in Hn2. }
  split; [done |].
  unfold vulnerabilitiesApproved.
  destruct (unapproved_of imageName vulnerabilities wl) as [|n ns].
  - apply sublist_nil_r in Hsub. by rewrite Hsub.
  - by rewrite bool_decide_true by (simpl; lia).
Qed.

Lemma whitelist_growth_rejects_less_witness :
  unapproved_of "myapp:1.0" scenario_findings
      {| GeneralWhitelist := {[ "CVE-2020-2" := "accepted" ]};
         Images := Images scenario_whitelist_image |}
    `sublist_of` unapproved_of "myapp:1.0" scenario_findings scenario_whitelist_image
  ∧ (vulnerabilitiesApproved "myapp:1.0" scenario_findings scenario_whitelist_image = None →
     vulnerabilitiesApproved "myapp:1.0" scenario_findings
       {| GeneralWhitelist := {[ "CVE-2020-2" := "accepted" ]};
          Images := Images scenario_whitelist_image |} = None).
Proof.
  apply (whitelist_growth_rejects_less "myapp:1.0" scenario_findings
           scenario_whitelist_image
           {| GeneralWhitelist := {[ "CVE-2020-2" := "accepted" ]};
              Images := Images scenario_whitelist_image |}).
  - apply map_empty_subseteq.
  - reflexivity.
Defined.

Lemma approval_loop_names whitelist entry (vs vs' : list vulnerabilityInfo) unapproved :
  vulnerability <$> vs = vulnerability <$> vs' →
  approval_loop whitelist entry vs unapproved = approval_loop whitelist entry vs' unapproved.
Proof.
  revert vs' unapproved. induction vs as [|v vs IH]; intros [|v' vs'] unapproved Hnames;
    try done.
  simpl in Hnames. injection Hnames as Hname Hrest. simpl. rewrite Hname.
  by apply IH.
Qed.

(** X3: the decision reads the findings by name only: two findings lists
    with the same names in the same order, whatever their namespaces and
    severities, get the same result. *)
Theorem decision_reads_names_only (imageName : string)
    (vs vs' : list vulnerabilityInfo) (whitelist : vulnerabilitiesWhitelist) :
  vulnerability <$> vs = vulnerability <$> vs' →
  vulnerabilitiesApproved imageName vs whitelist
  = vulnerabilitiesApproved imageName vs' whitelist.
Proof.
  intros Hnames. unfold vulnerabilitiesApproved, unapproved_of.
  by rewrite (approval_loop_names _ _ vs vs' _ Hnames).
Qed.

Lemma decision_reads_names_only_witness :
  vulnerabilitiesApproved "myapp:1.0" scenario_findings scenario_whitelist_image
  = vulnerabilitiesApproved "myapp:1.0"
      [ {| vulnerability := "CVE-2020-1"; namespace := "debian:9"; severity := "Critical" |};
        {| vulnerability := "CVE-2020-2"; namespace := "alpine"; severity := "Negligible" |} ]
      scenario_whitelist_image.
Proof.
  apply (decision_reads_names_only "myapp:1.0" scenario_findings
           [ {| vulnerability := "CVE-2020-1"; namespace := "debian:9";
                severity := "Critical" |};
             {| vulnerability := "CVE-2020-2"; namespace := "alpine";
                severity := "Negligible" |} ]
           scenario_whitelist_image).
  reflexivity.
Defined.

(** X4: the decision reads the whitelist by its keys only: two whitelists
    whose general mappings have the same keys and whose per-image entries
    for the image have the same keys get the same result, whatever the
    descriptions. *)
Theorem decision_reads_keys_only (imageName : string)
    (vulnerabilities : list vulnerabilityInfo) (wl wl' : vulnerabilitiesWhitelist) :
  dom (GeneralWhitelist wl) = dom (GeneralWhitelist wl') →
  dom (getImageVulnerabilities imageName (Images wl))
  = dom (getImageVulnerabilities imageName (Images wl')) →
  vulnerabilitiesApproved imageName vulnerabilities wl
  = vulnerabilitiesApproved imageName vulnerabilities wl'.
Proof.
  intros Hg Hi. unfold vulnerabilitiesApproved.
  assert (unapproved_of imageName vulnerabilities wl
          = unapproved_of imageName vulnerabilities wl') as ->; [| done].
  unfold unapproved_of. rewrite !approval_loop_filter. simpl. f_equal.
  apply list_filter_iff. intros f. rewrite !vulnerable_after_lookup.
  rewrite <- !not_elem_of_dom. by rewrite Hg, Hi.
Qed.

Lemma decision_reads_keys_only_witness :
  vulnerabilitiesApproved "myapp:1.0" scenario_findings scenario_whitelist_image
  = vulnerabilitiesApproved "myapp:1.0" scenario_findings
      {| GeneralWhitelist := ∅;
         Images := {[ "myapp" := {[ "CVE-2020-1" := "" ]} ]} |}.
Proof.
  apply (decision_reads_keys_only "myapp:1.0" scenario_findings scenario_whitelist_image
           {| GeneralWhitelist := ∅;
              Images := {[ "myapp" := {[ "CVE-2020-1" := "" ]} ]} |}).
  - reflexivity.
  - vm_compute. reflexivity.
Defined.

Lemma imageKey_tagged (name tag : string) :
  imageKey name = name → imageKey (name +:+ ":" +:+ tag) = name.
Proof.
  induction name as [|c name IH]; [done |].
  rewrite string_app_cons. simpl.
  destruct (decide (c = ":"%char)); [done |].
  intros [= Hname]. by rewrite IH.
Qed.

(** X5: what follows the first [:] of the image name is not read: for a name
    without [:], the name followed by [:] and any tag (a version, or anything
    else, further [:] included) selects the same per-image entry and gets the
    same result as the bare name. *)
Theorem decision_ignores_tag (name tag : string)
    (vulnerabilities : list vulnerabilityInfo) (whitelist : vulnerabilitiesWhitelist) :
  strings_Split name ":" = [name] →
  getImageVulnerabilities (name +:+ ":" +:+ tag) (Images whitelist)
  = getImageVulnerabilities name (Images whitelist)
  ∧ vulnerabilitiesApproved (name +:+ ":" +:+ tag) vulnerabilities whitelist
    = vulnerabilitiesApproved name vulnerabilities whitelist.
Proof.
  intros Hsplit.
  assert (imageKey name = name) as Hkey.
  { rewrite <- Split_colon_head. by rewrite Hsplit. }
  assert (getImageVulnerabilities (name +:+ ":" +:+ tag) (Images whitelist)
          = getImageVulnerabilities name (Images whitelist)) as Hentry.
  { by rewrite !getImageVulnerabilities_lookup, (imageKey_tagged name tag Hkey), Hkey. }
  split; [done |].
  unfold vulnerabilitiesApproved, unapproved_of. by rewrite Hentry.
Qed.

Lemma decision_ignores_tag_witness :
  getImageVulnerabilities ("myapp" +:+ ":" +:+ "5000/other:2.1")
    (Images scenario_whitelist_image)
  = getImageVulnerabilities "myapp" (Images scenario_whitelist_image)
  ∧ vulnerabilitiesApproved ("myapp" +:+ ":" +:+ "5000/other:2.1") scenario_findings
      scenario_whitelist_image
    = vulnerabilitiesApproved "myapp" scenario_findings scenario_whitelist_image.
Proof.
  apply (decision_ignores_tag "myapp" "5000/other:2.1" scenario_findings
           scenario_whitelist_image).
  reflexivity.
Defined.

(** X6: with the zero whitelist (no whitelist file) every finding is
    rejected: the rejected names are the names of all findings, and the
    result is nil only for the empty findings list. *)
Theorem zero_whitelist_rejects_all (imageName : string)
    (vulnerabilities : list vulnerabilityInfo) :
  unapproved_of imageName vulnerabilities whitelist_zero = vulnerability <$> vulnerabilities
  ∧ (vulnerabilitiesApproved imageName vulnerabilities whitelist_zero = None
     ↔ vulnerabilities = []).
Proof.
  assert (unapproved_of imageName vulnerabilities whitelist_zero
          = vulnerability <$> vulnerabilities) as Hall.
  { unfold unapproved_of. rewrite approval_loop_filter. simpl. f_equal.
    induction vulnerabilities as [|v vs IH]; [done |].
    rewrite filter_cons, decide_True, IH; [done |].
    apply vulnerable_after_lookup. split; [apply lookup_empty |].
    rewrite getImageVulnerabilities_lookup. simpl.
    rewrite lookup_empty. apply lookup_empty. }
  split; [done |].
  unfold vulnerabilitiesApproved. rewrite Hall.
  destruct vulnerabilities as [|v vs]; [done |].
  by rewrite bool_decide_true by (simpl; lia).
Qed.

Lemma genSplit_colon_join (s cur : string) :
  strings_Join (genSplit ":" s 0 cur) ":" = cur +:+ s.
Proof.
  revert cur. induction s as [|c s IH]; intros cur.
  - simpl. by rewrite string_app_nil_r.
  - cbn [genSplit HasPrefix].
    destruct (decide (":"%char = c)) as [<- | Hne].
    + cbn [String.length Nat.sub].
      pose proof (genSplit_colon_head s EmptyString) as Hhead.
      pose proof (IH EmptyString) as Hjoin.
      destruct (genSplit ":" s 0 "") as [|piece pieces]; [discriminate |].
      change (strings_Join (cur :: piece :: pieces) ":")
        with (cur +:+ ":" +:+ strings_Join (piece :: pieces) ":").
      by rewrite Hjoin.
    + rewrite IH, string_app_assoc. done.
Qed.

(** X7: splitting an image name at [:] loses nothing: there is always a
    first piece, so the index [0] is in range, and joining the pieces with
    [:] gives the name back. *)
Theorem Split_colon_Join (imageName : string) :
  (∃ key pieces, strings_Split imageName ":" = key :: pieces)
  ∧ strings_Join (strings_Split imageName ":") ":" = imageName.
Proof.
  unfold strings_Split. split.
  - pose proof (genSplit_colon_head imageName EmptyString) as Hhead.
    destruct (genSplit ":" imageName 0 "") as [|key pieces]; [discriminate | eauto].
  - by rewrite genSplit_colon_join.
Qed.

(** ** Further properties of the analyzer client *)

Lemma range_vulnerabilities_fmap (vs : list v1_Vulnerability)
    (vulnerabilities : list vulnerabilityInfo) :
  range_vulnerabilities vs vulnerabilities
  = vulnerabilities
    ++ ((λ v, {| vulnerability := Name v; namespace := NamespaceName v;
                 severity := Severity v |}) <$> vs).
Proof.
  revert vulnerabilities. induction vs as [|v vs IH]; intros vulnerabilities; simpl.
  - by rewrite app_nil_r.
  - by rewrite IH, <- app_assoc.
Qed.

Lemma range_features_concat (fs : list v1_Feature) (vulnerabilities : list vulnerabilityInfo) :
  range_features fs vulnerabilities
  = vulnerabilities
    ++ concat ((λ feature,
                  (λ v, {| vulnerability := Name v; namespace := NamespaceName v;
                           severity := Severity v |}) <$> Vulnerabilities feature)
               <$> fs).
Proof.
  revert vulnerabilities. induction fs as [|feature fs IH]; intros vulnerabilities; simpl.
  - by rewrite app_nil_r.
  - rewrite IH. case_bool_decide as Hlen.
    + by rewrite range_vulnerabilities_fmap, <- app_assoc.
    + destruct (Vulnerabilities feature); [done | simpl in Hlen; lia].
Qed.

(** X8: when the analyzer answers with a layer that has features,
    [getVulnerabilities] returns, with a nil error and without printing
    anything, one finding per vulnerability of the report: those of the first
    feature in their order, then those of the second, and so on, each with
    the name, namespace and severity reported; nothing is merged or dropped. *)
Theorem getVulnerabilities_flattens (a : Analyzer) (clairURL : string)
    (layerIds : list string) (top : string) (response : http_Response)
    (apiResponse : v1_LayerEnvelope) (layer : v1_Layer) :
  last layerIds = Some top →
  http_Get a (clairURL +:+ Sprintf getLayerFeaturesURI [ArgString top]) = inl response →
  StatusCode response = 200%Z →
  json_Decode a (Body response) = inl apiResponse →
  EnvelopeError apiResponse = None →
  Layer apiResponse = Some layer →
  Features layer ≠ [] →
  getVulnerabilities a clairURL layerIds
  = ([EvHttpGet (clairURL +:+ "/v1/layers/" +:+ top +:+ "?vulnerabilities"); EvBodyClose],
     Returned
       (concat ((λ feature,
                   (λ v, {| vulnerability := Name v; namespace := NamespaceName v;
                            severity := Severity v |}) <$> Vulnerabilities feature)
                <$> Features layer),
        None)).
Proof.
  intros Hlast Hget Hstatus Hdecode Herror Hlayer Hfeatures.
  rewrite (getVulnerabilities_run a clairURL layerIds top Hlast),
    fetchLayerVulnerabilities_run, Hget,
    (readLayerResponse_layer a response apiResponse Hstatus Hdecode Herror), Hlayer.
  cbn [ret result snd bind fst].
  rewrite bool_decide_false by (by destruct (Features layer)).
  by rewrite range_features_concat.
Qed.

Lemma getVulnerabilities_flattens_witness :
  getVulnerabilities scenario_analyzer "http://clair:6060" ["L1"; "L2"; "L3"]
  = ([EvHttpGet ("http://clair:6060" +:+ "/v1/layers/" +:+ "L3" +:+ "?vulnerabilities");
      EvBodyClose],
     Returned
       (concat ((λ feature,
                   (λ v, {| vulnerability := Name v; namespace := NamespaceName v;
                            severity := Severity v |}) <$> Vulnerabilities feature)
                <$> Features scenario_layer),
        None)).
Proof.
  apply (getVulnerabilities_flattens scenario_analyzer "http://clair:6060"
           ["L1"; "L2"; "L3"] "L3" {| StatusCode := 200; Body := "layer L3" |}
           {| Layer := Some scenario_layer; EnvelopeError := None |} scenario_layer);
    try reflexivity.
  discriminate.
Defined.

(** X9: [fetchLayerVulnerabilities] issues one GET and closes the body of
    the response exactly once whenever [http.Get] gave a response, on every
    path, the nil dereference included; it closes nothing when [http.Get]
    failed. *)
Theorem fetch_closes_body (a : Analyzer) (clairURL layerID : string) :
  trace (fetchLayerVulnerabilities a clairURL layerID)
  = EvHttpGet (clairURL +:+ "/v1/layers/" +:+ layerID +:+ "?vulnerabilities")
    :: match http_Get a (clairURL +:+ "/v1/layers/" +:+ layerID +:+ "?vulnerabilities") with
       | inl _ => [EvBodyClose]
       | inr _ => []
       end.
Proof.
  rewrite fetchLayerVulnerabilities_run, Sprintf_getLayerFeaturesURI.
  by destruct (http_Get a _).
Qed.

(** X10: an error of [http.Get], and an error of the JSON decoder on a 200
    response, come back unchanged: [fetchLayerVulnerabilities] returns the
    zero layer with that error, and [getVulnerabilities] the empty findings
    list with that error. *)
Theorem transport_errors_pass_through (a : Analyzer) (clairURL : string)
    (layerIds : list string) (top : string) (err : error) :
  last layerIds = Some top →
  http_Get a (clairURL +:+ Sprintf getLayerFeaturesURI [ArgString top]) = inr err
  ∨ (∃ response,
       http_Get a (clairURL +:+ Sprintf getLayerFeaturesURI [ArgString top]) = inl response
       ∧ StatusCode response = 200%Z
       ∧ json_Decode a (Body response) = inr err) →
  result (fetchLayerVulnerabilities a clairURL top) = Returned (v1_Layer_zero, Some err)
  ∧ result (getVulnerabilities a clairURL layerIds) = Returned ([], Some err).
Proof.
  intros Hlast Hcase.
  assert (result (fetchLayerVulnerabilities a clairURL top)
          = Returned (v1_Layer_zero, Some err)) as Hfetch.
  { rewrite fetchLayerVulnerabilities_run.
    destruct Hcase as [-> | (response & -> & Hstatus & Hdecode)]; [done |].
    unfold readLayerResponse.
    rewrite bool_decide_false by (by rewrite Hstatus; intros []).
    by rewrite Hdecode. }
  split; [done |].
  rewrite (getVulnerabilities_run a clairURL layerIds top Hlast).
  destruct (fetchLayerVulnerabilities a clairURL top) as [t o].
  simpl in Hfetch. by subst o.
Qed.

Lemma transport_errors_pass_through_witness :
  result (fetchLayerVulnerabilities
            (stub_analyzer 200 "<html>" (inr (errorString "invalid character '<'")))
            "http://clair:6060" "L2")
  = Returned (v1_Layer_zero, Some (errorString "invalid character '<'"))
  ∧ result (getVulnerabilities
              (stub_analyzer 200 "<html>" (inr (errorString "invalid character '<'")))
              "http://clair:6060" ["L1"; "L2"])
    = Returned ([], Some (errorString "invalid character '<'")).
Proof.
  apply (transport_errors_pass_through
           (stub_analyzer 200 "<html>" (inr (errorString "invalid character '<'")))
           "http://clair:6060" ["L1"; "L2"] "L2" (errorString "invalid character '<'")).
  - reflexivity.
  - right. exists {| StatusCode := 200; Body := "<html>" |}. repeat split.
Defined.

(** X11: whenever [getVulnerabilities] returns an error, the findings list it
    returns with it is empty. *)
Theorem getVulnerabilities_error_no_findings (a : Analyzer) (clairURL : string)
    (layerIds : list string) (vulnerabilities : list vulnerabilityInfo) (e : error) :
  result (getVulnerabilities a clairURL layerIds) = Returned (vulnerabilities, Some e) →
  vulnerabilities = [].
Proof.
  destruct (last layerIds) as [top|] eqn:Hlast.
  - rewrite (getVulnerabilities_run a clairURL layerIds top Hlast).
    destruct (fetchLayerVulnerabilities a clairURL top) as [t [[raw err] | msg | code]];
      [| discriminate..].
    destruct err as [e'|]; cbn [bind ret snd fst result].
    + by intros [= <- _].
    + case_bool_decide; discriminate.
  - apply last_None in Hlast as ->. discriminate.
Qed.

Lemma getVulnerabilities_error_no_findings_witness :
  result (getVulnerabilities
            (stub_analyzer 503 "unavailable" (inr (errorString "not reached")))
            "http://clair:6060" ["L1"])
  = Returned ([], Some (errorString "Got response 503 with message unavailable"))
  ∧ @nil vulnerabilityInfo = [].
Proof.
  split; [vm_compute; reflexivity |].
  apply (getVulnerabilities_error_no_findings
           (stub_analyzer 503 "unavailable" (inr (errorString "not reached")))
           "http://clair:6060" ["L1"] []
           (errorString "Got response 503 with message unavailable")).
  vm_compute. reflexivity.
Defined.

(** X12: [getVulnerabilities] never ends the process.  Without layer IDs it
    panics on the index before any request is sent; otherwise it returns, or
    panics on the nil dereference of the missing layer. *)
Theorem getVulnerabilities_outcomes (a : Analyzer) (clairURL : string)
    (layerIds : list string) :
  match layerIds with
  | [] => getVulnerabilities a clairURL layerIds
          = ([], Panicked "runtime error: index out of range [-1]")
  | _ :: _ => (∃ r, result (getVulnerabilities a clairURL layerIds) = Returned r)
              ∨ result (getVulnerabilities a clairURL layerIds) = Panicked nil_dereference
  end.
Proof.
  destruct layerIds as [|l ls]; [reflexivity |].
  destruct (last (l :: ls)) as [top|] eqn:Hlast; [| by apply last_None in Hlast].
  rewrite (getVulnerabilities_run a clairURL (l :: ls) top Hlast),
    fetchLayerVulnerabilities_run.
  destruct (http_Get a _) as [response | err]; [| left; by eexists].
  destruct (readLayerResponse_cases a response) as [_ [[[raw err] ->] | ->]];
    [| by right].
  left. destruct err as [e|]; [by eexists |]. cbn [bind snd fst].
  case_bool_decide; by eexists.
Qed.

(** ** Further properties of the scan orchestrator *)

Lemma bind_returned {A B} (t : list event) (x : A) (k : A → M B) :
  bind (t, Returned x) k = (t ++ trace (k x), result (k x)).
Proof. unfold bind. by destruct (k x). Qed.

Section Unwinding.
Context (c : Collaborators) (a : Analyzer).
Context (imageName : string) (whitelist : vulnerabilitiesWhitelist).
Context (clairURL scannerIP : string).
Context (tmpPath : string) (layerIds : list string) (server : Server c).
Context (t_tmp t_save t_ids t_serve t_analyze t_down : list event).
Context (down : option error).

Hypothesis createTmpPath_returns : createTmpPath c tmpPrefix = (t_tmp, Returned tmpPath).
Hypothesis saveDockerImage_returns :
  saveDockerImage c imageName tmpPath = (t_save, Returned tt).
Hypothesis getImageLayerIds_returns :
  getImageLayerIds c tmpPath = (t_ids, Returned layerIds).
Hypothesis httpFileServer_returns :
  httpFileServer c tmpPath (Itoa httpPort) = (t_serve, Returned server).
Hypothesis analyzeLayers_returns :
  analyzeLayers c layerIds clairURL scannerIP = (t_analyze, Returned tt).
Hypothesis Shutdown_returns : Shutdown c server = (t_down, Returned down).

(** When [start_decide] panics, both deferred calls run, the shutdown
    first, and the panic goes on. *)
Lemma start_panic (t : list event) (msg : string) :
  start_decide a imageName whitelist clairURL layerIds = (t, Panicked msg) →
  start c a imageName whitelist clairURL scannerIP
  = ((t_tmp ++ [EvGo "listenForSignal"] ++ t_save ++ t_ids ++ t_serve ++ t_analyze)
       ++ t ++ t_down ++ [EvRemoveAll tmpPath],
     Panicked msg).
Proof.
  intros Hdecide. unfold start.
  rewrite createTmpPath_returns. cbn [bind emit].
  rewrite saveDockerImage_returns. cbn [bind].
  rewrite getImageLayerIds_returns. cbn [bind].
  rewrite httpFileServer_returns. cbn [bind].
  rewrite analyzeLayers_returns. cbn [bind].
  rewrite Hdecide. cbn [defer]. rewrite Shutdown_returns.
  unfold os_RemoveAll. cbn [defer bind emit ret]. f_equal.
  rewrite app_nil_r. by rewrite <- !app_assoc.
Qed.
End Unwinding.

Lemma start_decide_panicked (a : Analyzer) (imageName : string)
    (whitelist : vulnerabilitiesWhitelist) (clairURL : string) (layerIds : list string)
    (t : list event) (msg : string) :
  getVulnerabilities a clairURL layerIds = (t, Panicked msg) →
  start_decide a imageName whitelist clairURL layerIds = (t, Panicked msg).
Proof. intros Hget. unfold start_decide. by rewrite Hget. Qed.

(** X13: when [getVulnerabilities] panics (the image has no layer IDs, or
    the analyzer's envelope has neither error nor layer) and the
    collaborators return, [start] still runs its two deferred calls, the
    server shutdown first and then the removal of the workspace directory
    that [createTmpPath] returned, once, and the panic goes on. *)
Theorem start_panic_runs_deferred (c : Collaborators) (a : Analyzer) (imageName : string)
    (whitelist : vulnerabilitiesWhitelist) (clairURL scannerIP tmpPath : string)
    (layerIds : list string) (server : Server c)
    (t_tmp t_save t_ids t_serve t_analyze t_down t : list event)
    (down : option error) (msg : string) :
  createTmpPath c tmpPrefix = (t_tmp, Returned tmpPath) →
  saveDockerImage c imageName tmpPath = (t_save, Returned tt) →
  getImageLayerIds c tmpPath = (t_ids, Returned layerIds) →
  httpFileServer c tmpPath (Itoa httpPort) = (t_serve, Returned server) →
  analyzeLayers c layerIds clairURL scannerIP = (t_analyze, Returned tt) →
  Shutdown c server = (t_down, Returned down) →
  getVulnerabilities a clairURL layerIds = (t, Panicked msg) →
  start c a imageName whitelist clairURL scannerIP
  = ((t_tmp ++ [EvGo "listenForSignal"] ++ t_save ++ t_ids ++ t_serve ++ t_analyze)
       ++ t ++ t_down ++ [EvRemoveAll tmpPath],
     Panicked msg).
Proof.
  intros Htmp Hsave Hids Hserve Hanalyze Hdown Hget.
  apply (start_panic c a imageName whitelist clairURL scannerIP tmpPath layerIds server
           t_tmp t_save t_ids t_serve t_analyze t_down down); try done.
  by apply start_decide_panicked.
Qed.

Lemma start_panic_runs_deferred_witness :
  start (stub_collaborators []) scenario_analyzer "scratch" whitelist_zero
    "http://clair:6060" "localhost"
  = (([EvCall "createTmpPath" ["clair-scanner-"]] ++ [EvGo "listenForSignal"]
        ++ [EvCall "saveDockerImage" ["scratch"; "/tmp/clair-scanner-0"]]
        ++ [EvCall "getImageLayerIds" ["/tmp/clair-scanner-0"]]
        ++ [EvCall "httpFileServer" ["/tmp/clair-scanner-0"; "9279"]]
        ++ [EvCall "analyzeLayers" ["http://clair:6060"; "localhost"]])
       ++ [] ++ [EvCall "Shutdown" []] ++ [EvRemoveAll "/tmp/clair-scanner-0"],
     Panicked "runtime error: index out of range [-1]").
Proof.
  apply (start_panic_runs_deferred (stub_collaborators []) scenario_analyzer "scratch"
           whitelist_zero "http://clair:6060" "localhost" "/tmp/clair-scanner-0" [] tt
           [EvCall "createTmpPath" ["clair-scanner-"]]
           [EvCall "saveDockerImage" ["scratch"; "/tmp/clair-scanner-0"]]
           [EvCall "getImageLayerIds" ["/tmp/clair-scanner-0"]]
           [EvCall "httpFileServer" ["/tmp/clair-scanner-0"; "9279"]]
           [EvCall "analyzeLayers" ["http://clair:6060"; "localhost"]]
           [EvCall "Shutdown" []] [] None
           "runtime error: index out of range [-1]"); reflexivity.
Defined.

(** X14: when the collaborators return and the findings are approved,
    [start] returns, and after the decision it shuts the server down and
    then removes the workspace directory, each once and in that order. *)
Theorem start_approved_run (c : Collaborators) (a : Analyzer) (imageName : string)
    (whitelist : vulnerabilitiesWhitelist) (clairURL scannerIP tmpPath : string)
    (layerIds : list string) (server : Server c)
    (t_tmp t_save t_ids t_serve t_analyze t_down t : list event)
    (down : option error) (vulnerabilities : list vulnerabilityInfo) :
  createTmpPath c tmpPrefix = (t_tmp, Returned tmpPath) →
  saveDockerImage c imageName tmpPath = (t_save, Returned tt) →
  getImageLayerIds c tmpPath = (t_ids, Returned layerIds) →
  httpFileServer c tmpPath (Itoa httpPort) = (t_serve, Returned server) →
  analyzeLayers c layerIds clairURL scannerIP = (t_analyze, Returned tt) →
  Shutdown c server = (t_down, Returned down) →
  getVulnerabilities a clairURL layerIds = (t, Returned (vulnerabilities, None)) →
  vulnerabilitiesApproved imageName vulnerabilities whitelist = None →
  start c a imageName whitelist clairURL scannerIP
  = ((t_tmp ++ [EvGo "listenForSignal"] ++ t_save ++ t_ids ++ t_serve ++ t_analyze)
       ++ t ++ t_down ++ [EvRemoveAll tmpPath],
     Returned tt).
Proof.
  intros Htmp Hsave Hids Hserve Hanalyze Hdown Hget Hdecision.
  apply (start_return c a imageName whitelist clairURL scannerIP tmpPath layerIds server
           t_tmp t_save t_ids t_serve t_analyze) with (down := down); try done.
  by apply (start_decide_approved _ _ _ _ _ _ vulnerabilities).
Qed.

Lemma start_approved_run_witness :
  scenario_run scenario_whitelist_general
  = (([EvCall "createTmpPath" ["clair-scanner-"]] ++ [EvGo "listenForSignal"]
        ++ [EvCall "saveDockerImage" ["myapp:1.0"; "/tmp/clair-scanner-0"]]
        ++ [EvCall "getImageLayerIds" ["/tmp/clair-scanner-0"]]
        ++ [EvCall "httpFileServer" ["/tmp/clair-scanner-0"; "9279"]]
        ++ [EvCall "analyzeLayers" ["L1"; "L2"; "L3"; "http://clair:6060"; "localhost"]])
       ++ [EvHttpGet "http://clair:6060/v1/layers/L3?vulnerabilities"; EvBodyClose]
       ++ [EvCall "Shutdown" []] ++ [EvRemoveAll "/tmp/clair-scanner-0"],
     Returned tt).
Proof.
  apply (start_approved_run (stub_collaborators ["L1"; "L2"; "L3"]) scenario_analyzer
           "myapp:1.0" scenario_whitelist_general "http://clair:6060" "localhost"
           "/tmp/clair-scanner-0" ["L1"; "L2"; "L3"] tt
           [EvCall "createTmpPath" ["clair-scanner-"]]
           [EvCall "saveDockerImage" ["myapp:1.0"; "/tmp/clair-scanner-0"]]
           [EvCall "getImageLayerIds" ["/tmp/clair-scanner-0"]]
           [EvCall "httpFileServer" ["/tmp/clair-scanner-0"; "9279"]]
           [EvCall "analyzeLayers" ["L1"; "L2"; "L3"; "http://clair:6060"; "localhost"]]
           [EvCall "Shutdown" []]
           [EvHttpGet "http://clair:6060/v1/layers/L3?vulnerabilities"; EvBodyClose]
           None scenario_findings); vm_compute; reflexivity.
Defined.

(** X15: when [getVulnerabilities] returns an error and the collaborators
    return, [start] logs [Analyzing failed: <message>] and leaves the process
    with status 1, whatever the whitelist: the findings are not judged. *)
Theorem start_failed_run (c : Collaborators) (a : Analyzer) (imageName : string)
    (whitelist : vulnerabilitiesWhitelist) (clairURL scannerIP tmpPath : string)
    (layerIds : list string) (server : Server c)
    (t_tmp t_save t_ids t_serve t_analyze t : list event)
    (vulnerabilities : list vulnerabilityInfo) (e : error) :
  createTmpPath c tmpPrefix = (t_tmp, Returned tmpPath) →
  saveDockerImage c imageName tmpPath = (t_save, Returned tt) →
  getImageLayerIds c tmpPath = (t_ids, Returned layerIds) →
  httpFileServer c tmpPath (Itoa httpPort) = (t_serve, Returned server) →
  analyzeLayers c layerIds clairURL scannerIP = (t_analyze, Returned tt) →
  getVulnerabilities a clairURL layerIds = (t, Returned (vulnerabilities, Some e)) →
  start c a imageName whitelist clairURL scannerIP
  = ((t_tmp ++ [EvGo "listenForSignal"] ++ t_save ++ t_ids ++ t_serve ++ t_analyze)
       ++ t ++ [EvLog ("Analyzing failed: " +:+ Error e)],
     Exited 1).
Proof.
  intros Htmp Hsave Hids Hserve Hanalyze Hget.
  apply (start_exit c a imageName whitelist clairURL scannerIP tmpPath layerIds server);
    try done.
  by apply (start_decide_failed _ _ _ _ _ _ vulnerabilities).
Qed.

Lemma start_failed_run_witness :
  start (stub_collaborators ["L1"])
    (stub_analyzer 500 "boom" (inr (errorString "not reached")))
    "myapp:1.0" scenario_whitelist_general "http://clair:6060" "localhost"
  = (([EvCall "createTmpPath" ["clair-scanner-"]] ++ [EvGo "listenForSignal"]
        ++ [EvCall "saveDockerImage" ["myapp:1.0"; "/tmp/clair-scanner-0"]]
        ++ [EvCall "getImageLayerIds" ["/tmp/clair-scanner-0"]]
        ++ [EvCall "httpFileServer" ["/tmp/clair-scanner-0"; "9279"]]
        ++ [EvCall "analyzeLayers" ["L1"; "http://clair:6060"; "localhost"]])
       ++ [EvHttpGet "http://clair:6060/v1/layers/L1?vulnerabilities"; EvBodyClose]
       ++ [EvLog ("Analyzing failed: "
                  +:+ Error (errorString "Got response 500 with message boom"))],
     Exited 1).
Proof.
  apply (start_failed_run (stub_collaborators ["L1"])
           (stub_analyzer 500 "boom" (inr (errorString "not reached")))
           "myapp:1.0" scenario_whitelist_general "http://clair:6060" "localhost"
           "/tmp/clair-scanner-0" ["L1"] tt
           [EvCall "createTmpPath" ["clair-scanner-"]]
           [EvCall "saveDockerImage" ["myapp:1.0"; "/tmp/clair-scanner-0"]]
           [EvCall "getImageLayerIds" ["/tmp/clair-scanner-0"]]
           [EvCall "httpFileServer" ["/tmp/clair-scanner-0"; "9279"]]
           [EvCall "analyzeLayers" ["L1"; "http://clair:6060"; "localhost"]]
           [EvHttpGet "http://clair:6060/v1/layers/L1?vulnerabilities"; EvBodyClose]
           [] (errorString "Got response 500 with message boom")); vm_compute; reflexivity.
Defined.

Lemma start_rejected_run_witness :
  scenario_run scenario_whitelist_image
  = (([EvCall "createTmpPath" ["clair-scanner-"]] ++ [EvGo "listenForSignal"]
        ++ [EvCall "saveDockerImage" ["myapp:1.0"; "/tmp/clair-scanner-0"]]
        ++ [EvCall "getImageLayerIds" ["/tmp/clair-scanner-0"]]
        ++ [EvCall "httpFileServer" ["/tmp/clair-scanner-0"; "9279"]]
        ++ [EvCall "analyzeLayers" ["L1"; "L2"; "L3"; "http://clair:6060"; "localhost"]])
       ++ [EvHttpGet "http://clair:6060/v1/layers/L3?vulnerabilities"; EvBodyClose]
       ++ [EvLog ("Image contains unapproved vulnerabilities: "
                  +:+ Error (errorString "[CVE-2020-2]"))],
     Exited 1).
Proof.
  apply (start_rejected_run (stub_collaborators ["L1"; "L2"; "L3"]) scenario_analyzer
           "myapp:1.0" scenario_whitelist_image "http://clair:6060" "localhost"
           "/tmp/clair-scanner-0" ["L1"; "L2"; "L3"] tt
           [EvCall "createTmpPath" ["clair-scanner-"]]
           [EvCall "saveDockerImage" ["myapp:1.0"; "/tmp/clair-scanner-0"]]
           [EvCall "getImageLayerIds" ["/tmp/clair-scanner-0"]]
           [EvCall "httpFileServer" ["/tmp/clair-scanner-0"; "9279"]]
           [EvCall "analyzeLayers" ["L1"; "L2"; "L3"; "http://clair:6060"; "localhost"]]
           [EvHttpGet "http://clair:6060/v1/layers/L3?vulnerabilities"; EvBodyClose]
           scenario_findings (errorString "[CVE-2020-2]")); vm_compute; reflexivity.
Defined.

(** ** The entry point *)

Lemma parseWhitelist_read_error (fs : Files) (whitelistFile bytes : string) (e : error) :
  ioutil_ReadFile fs whitelistFile = (bytes, Some e) →
  parseWhitelist fs whitelistFile
  = ([EvCall "ioutil.ReadFile" [whitelistFile]; EvLog (Error e)], Exited 1).
Proof. intros Hread. unfold parseWhitelist. by rewrite Hread. Qed.

Lemma parseWhitelist_decode (fs : Files) (whitelistFile bytes : string)
    (decoded : vulnerabilitiesWhitelist) (err : option error) :
  ioutil_ReadFile fs whitelistFile = (bytes, None) →
  yaml_Unmarshal fs bytes whitelist_zero = (decoded, err) →
  parseWhitelist fs whitelistFile
  = match err with
    | Some e => ([EvCall "ioutil.ReadFile" [whitelistFile];
                  EvLog ("error: " +:+ Error e)], Exited 1)
    | None => ([EvCall "ioutil.ReadFile" [whitelistFile]], Returned decoded)
    end.
Proof.
  intros Hread Hdecode. unfold parseWhitelist. rewrite Hread. cbn [bind emit ret app].
  rewrite Hdecode. destruct err as [e|]; [| reflexivity].
  unfold log_Fatalf. cbn [Sprintf fmt_v fmt_s bind emit os_Exit app].
  by rewrite string_app_nil_r.
Qed.

(** [parseWhitelist], case by case: a read error and a decoding error are
    fatal, and otherwise the decoded value is returned. *)
Lemma parseWhitelist_outcomes (fs : Files) (whitelistFile : string) :
  parseWhitelist fs whitelistFile
  = match ioutil_ReadFile fs whitelistFile with
    | (_, Some e) =>
        ([EvCall "ioutil.ReadFile" [whitelistFile]; EvLog (Error e)], Exited 1)
    | (bytes, None) =>
        match yaml_Unmarshal fs bytes whitelist_zero with
        | (_, Some e) =>
            ([EvCall "ioutil.ReadFile" [whitelistFile]; EvLog ("error: " +:+ Error e)],
             Exited 1)
        | (decoded, None) => ([EvCall "ioutil.ReadFile" [whitelistFile]], Returned decoded)
        end
    end.
Proof.
  destruct (ioutil_ReadFile fs whitelistFile) as [bytes [e|]] eqn:Hread.
  - by apply (parseWhitelist_read_error fs whitelistFile bytes).
  - destruct (yaml_Unmarshal fs bytes whitelist_zero) as [decoded err] eqn:Hdecode.
    rewrite (parseWhitelist_decode fs whitelistFile bytes decoded err Hread Hdecode).
    by destruct err.
Qed.

(** X17: when a whitelist file is named and it cannot be read or decoded,
    [main] leaves the process with status 1 right after the log line: no
    workspace is created, no layer is submitted and the analyzer is not
    queried. *)
Theorem main_bad_whitelist_stops (c : Collaborators) (a : Analyzer) (fs : Files)
    (o : Options) (e : error) (msg : string) :
  opt_whitelist o ≠ EmptyString →
  ((ioutil_ReadFile fs (opt_whitelist o)).2 = Some e ∧ msg = Error e)
  ∨ (∃ bytes decoded,
       ioutil_ReadFile fs (opt_whitelist o) = (bytes, None)
       ∧ yaml_Unmarshal fs bytes whitelist_zero = (decoded, Some e)
       ∧ msg = "error: " +:+ Error e) →
  main c a fs o = ([EvCall "ioutil.ReadFile" [opt_whitelist o]; EvLog msg], Exited 1).
Proof.
  intros Hfile Hcase. unfold main, app_Before.
  rewrite bool_decide_true by done. rewrite parseWhitelist_outcomes.
  destruct Hcase as [[Hread ->] | (bytes & decoded & Hread & Hdecode & ->)].
  - destruct (ioutil_ReadFile fs (opt_whitelist o)) as [bytes err].
    simpl in Hread. by subst err.
  - by rewrite Hread, Hdecode.
Qed.

Lemma main_bad_whitelist_stops_witness :
  main (stub_collaborators ["L1"]) scenario_analyzer stub_files
    {| opt_whitelist := "missing.yaml"; opt_clair := "http://clair:6060";
       opt_ip := "localhost"; arg_IMAGE := "myapp:1.0" |}
  = ([EvCall "ioutil.ReadFile" ["missing.yaml"];
      EvLog "open missing.yaml: no such file or directory"], Exited 1)
  ∧ main (stub_collaborators ["L1"]) scenario_analyzer stub_files
      {| opt_whitelist := "broken.yaml"; opt_clair := "http://clair:6060";
         opt_ip := "localhost"; arg_IMAGE := "myapp:1.0" |}
    = ([EvCall "ioutil.ReadFile" ["broken.yaml"];
        EvLog "error: yaml: did not find expected node content"], Exited 1).
Proof.
  split.
  - apply (main_bad_whitelist_stops (stub_collaborators ["L1"]) scenario_analyzer stub_files
             {| opt_whitelist := "missing.yaml"; opt_clair := "http://clair:6060";
                opt_ip := "localhost"; arg_IMAGE := "myapp:1.0" |}
             (errorString "open missing.yaml: no such file or directory")).
    + discriminate.
    + left. split; reflexivity.
  - apply (main_bad_whitelist_stops (stub_collaborators ["L1"]) scenario_analyzer stub_files
             {| opt_whitelist := "broken.yaml"; opt_clair := "http://clair:6060";
                opt_ip := "localhost"; arg_IMAGE := "myapp:1.0" |}
             (errorString "yaml: did not find expected node content")).
    + discriminate.
    + right. exists "{", whitelist_zero. repeat split.
Defined.

(** X18: without a whitelist file [main] reads no file, whatever the file
    system holds: it logs [Start clair-scanner] and runs [start] on the image
    with the zero whitelist, the analyzer URL and the scanner address of the
    options. *)
Theorem main_without_whitelist (c : Collaborators) (a : Analyzer) (fs : Files) (o : Options) :
  opt_whitelist o = EmptyString →
  main c a fs o
  = (EvLog "Start clair-scanner"
       :: trace (start c a (arg_IMAGE o) whitelist_zero (opt_clair o) (opt_ip o)),
     result (start c a (arg_IMAGE o) whitelist_zero (opt_clair o) (opt_ip o))).
Proof.
  intros Hfile. unfold main, app_Before, app_Action.
  rewrite bool_decide_false by (by rewrite Hfile; intros []).
  unfold ret at 1. rewrite bind_returned.
  unfold log_Print, emit. cbn [fmt_v fmt_s]. by rewrite bind_returned.
Qed.

Lemma main_without_whitelist_witness :
  main (stub_collaborators ["L1"; "L2"; "L3"]) scenario_analyzer stub_files
    (default_options "myapp:1.0")
  = (EvLog "Start clair-scanner"
       :: trace (start (stub_collaborators ["L1"; "L2"; "L3"]) scenario_analyzer
                   "myapp:1.0" whitelist_zero "http://127.0.0.1:6060" "localhost"),
     result (start (stub_collaborators ["L1"; "L2"; "L3"]) scenario_analyzer
               "myapp:1.0" whitelist_zero "http://127.0.0.1:6060" "localhost")).
Proof.
  apply (main_without_whitelist (stub_collaborators ["L1"; "L2"; "L3"]) scenario_analyzer
           stub_files (default_options "myapp:1.0")).
  reflexivity.
Defined.

(** X19: with a whitelist file that is read and decoded without error,
    [main] reads that file once, logs [Start clair-scanner] and runs [start]
    with the decoded whitelist. *)
Theorem main_with_whitelist (c : Collaborators) (a : Analyzer) (fs : Files) (o : Options)
    (bytes : string) (decoded : vulnerabilitiesWhitelist) :
  opt_whitelist o ≠ EmptyString →
  ioutil_ReadFile fs (opt_whitelist o) = (bytes, None) →
  yaml_Unmarshal fs bytes whitelist_zero = (decoded, None) →
  main c a fs o
  = (EvCall "ioutil.ReadFile" [opt_whitelist o] :: EvLog "Start clair-scanner"
       :: trace (start c a (arg_IMAGE o) decoded (opt_clair o) (opt_ip o)),
     result (start c a (arg_IMAGE o) decoded (opt_clair o) (opt_ip o))).
Proof.
  intros Hfile Hread Hdecode. unfold main, app_Before, app_Action.
  rewrite bool_decide_true by done.
  rewrite (parseWhitelist_decode fs _ bytes decoded None Hread Hdecode).
  rewrite bind_returned.
  unfold log_Print, emit. cbn [fmt_v fmt_s]. by rewrite bind_returned.
Qed.

Lemma main_with_whitelist_witness :
  main (stub_collaborators ["L1"; "L2"; "L3"]) scenario_analyzer stub_files
    {| opt_whitelist := "whitelist.yaml"; opt_clair := "http://clair:6060";
       opt_ip := "localhost"; arg_IMAGE := "myapp:1.0" |}
  = (EvCall "ioutil.ReadFile" ["whitelist.yaml"] :: EvLog "Start clair-scanner"
       :: trace (scenario_run scenario_whitelist_image),
     result (scenario_run scenario_whitelist_image)).
Proof.
  apply (main_with_whitelist (stub_collaborators ["L1"; "L2"; "L3"]) scenario_analyzer
           stub_files
           {| opt_whitelist := "whitelist.yaml"; opt_clair := "http://clair:6060";
              opt_ip := "localhost"; arg_IMAGE := "myapp:1.0" |}
           "images: myapp" scenario_whitelist_image).
  - discriminate.
  - reflexivity.
  - reflexivity.
Defined.

(** ** The rejected names as a whitelist *)

Lemma lookup_foldr_insert_None (names : list string) (description : string)
    (m : gmap string string) (name : string) :
  (foldr (λ n acc, <[n := description]> acc) m names) !! name = None
  ↔ (name ∉ names) ∧ m !! name = None.
Proof.
  induction names as [|n names IH]; simpl.
  - split.
    + intros Hm. split; [apply not_elem_of_nil | done].
    + by intros [_ Hm].
  - rewrite lookup_insert_None, IH, not_elem_of_cons. split.
    + intros [[Hnames Hm] Hne]. split; [split |]; congruence.
    + intros [[Hne Hnames] Hm]. split; [split |]; congruence.
Qed.

(** X20: the rejected names are enough to get the image approved: once every
    name the decision rejected is added as a key of the general whitelist,
    with any description, the same findings are approved for the same image. *)
Theorem whitelisting_rejected_names_approves (imageName : string)
    (vulnerabilities : list vulnerabilityInfo) (whitelist : vulnerabilitiesWhitelist)
    (description : string) :
  vulnerabilitiesApproved imageName vulnerabilities
    {| GeneralWhitelist :=
         foldr (λ n acc, <[n := description]> acc) (GeneralWhitelist whitelist)
           (unapproved_of imageName vulnerabilities whitelist);
       Images := Images whitelist |}
  = None.
Proof.
  set (wl' := {| GeneralWhitelist :=
                   foldr (λ n acc, <[n := description]> acc) (GeneralWhitelist whitelist)
                     (unapproved_of imageName vulnerabilities whitelist);
                 Images := Images whitelist |}).
  assert (unapproved_of imageName vulnerabilities wl' = []) as Hnone.
  { destruct (unapproved_of imageName vulnerabilities wl') as [|name names] eqn:Hu;
      [done | exfalso].
    assert (name ∈ unapproved_of imageName vulnerabilities wl') as Hin
      by (rewrite Hu; left).
    clear Hu. unfold unapproved_of in Hin. rewrite approval_loop_filter in Hin.
    cbn [app] in Hin.
    apply list_elem_of_fmap in Hin as (f & -> & Hf).
    apply list_elem_of_filter in Hf as [Hv Hf].
    apply vulnerable_after_lookup in Hv as [Hg Hi].
    apply lookup_foldr_insert_None in Hg as [Hnot Hg]. apply Hnot.
    unfold unapproved_of. rewrite approval_loop_filter. cbn [app].
    apply list_elem_of_fmap. exists f. split; [done |].
    apply list_elem_of_filter. split; [| done].
    by apply vulnerable_after_lookup. }
  unfold vulnerabilitiesApproved. by rewrite Hnone.
Qed.
